(** * ib_insync/order.py: orders, order conditions, order status and trades

    A shallow embedding of [src/ib_insync/order.py].  Python objects live in
    an explicit store: an instance is a class tag with its attribute table,
    a list is a mutable sequence, and a variable holds either an immutable
    scalar or a reference into the store.  Methods that read or mutate
    [self] take the store and return the new one; anything that can raise
    returns a [result].

    The development covers the condition classes with [createClass],
    [And] and [Or], the status sets, the construction of orders with its
    four typed constructors, the equality and hash of orders, and the four
    queries of a trade.  The [__repr__] methods and the event channels
    that [Trade.__init__] creates (eventkit's) are left out. *)

From Stdlib Require Import ZArith Bool Lia.
From Corelib Require Import PrimFloat FloatOps SpecFloat.
From stdpp Require Import base list strings gmap.

Open Scope string_scope.
Open Scope list_scope.
Open Scope Z_scope.

(** ** Exceptions and the error monad *)

Inductive exn : Type :=
  | AttributeError
  | KeyError
  | TypeError
  | OverflowError.

Inductive result (A : Type) : Type :=
  | OK (a : A)
  | Raise (e : exn).
Arguments OK {A} a.
Arguments Raise {A} e.

#[global] Instance result_ret : MRet result := fun A a => OK a.
#[global] Instance result_bind : MBind result :=
  fun A B f m => match m with OK a => f a | Raise e => Raise e end.

Definition of_option {A} (e : exn) (o : option A) : result A :=
  match o with Some a => OK a | None => Raise e end.

Definition succeeds {A} (r : result A) : Prop := exists a, r = OK a.

(** ** Python values *)

Abbreviation loc := nat (only parsing).

(** Scalars are immutable and compared by value; [VRef] is a reference to
    a mutable object of the store. *)
Inductive value : Type :=
  | VNone
  | VBool (b : bool)
  | VInt (n : Z)
  | VFloat (x : float)
  | VStr (s : string)
  | VRef (l : loc).

(** A dict literal, in insertion order. *)
Abbreviation alist := (list (string * value)) (only parsing).

Fixpoint alist_get (k : string) (d : alist) : option value :=
  match d with
  | [] => None
  | (k', v) :: d' => if String.eqb k k' then Some v else alist_get k d'
  end.

(** [d[k] = v]: an existing key keeps its position, a new one goes last. *)
Fixpoint alist_set (k : string) (v : value) (d : alist) : alist :=
  match d with
  | [] => [(k, v)]
  | (k', v') :: d' =>
      if String.eqb k k' then (k', v) :: d' else (k', v') :: alist_set k v d'
  end.

(** [{**d, **e}] *)
Definition alist_update (d e : alist) : alist :=
  fold_left (fun acc kv => alist_set (fst kv) (snd kv) acc) e d.

Definition keys (d : alist) : list string := map fst d.

Definition mem (k : string) (ks : list string) : bool :=
  existsb (String.eqb k) ks.

(** ** Classes *)

(** What the program reads of a class object: its name, the names of its
    proper base classes (nearest first), the class attribute [defaults],
    the slots of its instances (inherited ones included) and whether the
    instances carry a [__dict__]. *)
Record pyclass : Type := PyClass {
  __name__ : string;
  bases : list string;
  defaults : alist;
  slots : list string;
  has_dict : bool }.

(** [issubclass(c, base)], with the base given by name. *)
Definition issubclass (c : pyclass) (base : string) : bool :=
  String.eqb (__name__ c) base || mem base (bases c).

(** ** The store *)

Inductive object : Type :=
  | Instance (c : pyclass) (attrs : alist)
  | PyList (items : list value).

(** The store is the sequence of objects allocated so far; an object's
    location is its index. *)
Abbreviation heap := (list object) (only parsing).

Definition alloc (h : heap) (o : object) : loc * heap :=
  (List.length h, h ++ [o]).

(** [id(o)]: the identity of the object at [l]. *)
Definition py_id (l : loc) : Z := Z.of_nat l.

(** ** Truth value, equality and arithmetic of scalars *)

(** [bool(v)].  Neither the classes of order.py nor the record base of
    the spec give an instance a [__bool__] or a [__len__], so an instance
    is true; a list is true when it is not empty. *)
Definition truthy (h : heap) (v : value) : bool :=
  match v with
  | VNone => false
  | VBool b => b
  | VInt n => negb (n =? 0)
  | VFloat x => negb (PrimFloat.eqb x 0)
  | VStr s => negb (String.eqb s "")
  | VRef l =>
      match h !! l with
      | Some (PyList items) => match items with [] => false | _ => true end
      | _ => true
      end
  end.

(** [int -> float], round to nearest even; Python raises OverflowError
    where the result would not be finite. *)
Definition float_of_Z (n : Z) : result float :=
  let x := SF2Prim (binary_normalize prec emax n 0 false) in
  if is_infinity x then Raise OverflowError else OK x.

Definition Z_of_bool (b : bool) : Z := if b then 1 else 0.

(** The numeric reading of an operand: an [int] (a [bool] is one) or a
    [float]. *)
Inductive number : Type :=
  | NInt (n : Z)
  | NFloat (x : float).

Definition to_number (v : value) : option number :=
  match v with
  | VBool b => Some (NInt (Z_of_bool b))
  | VInt n => Some (NInt n)
  | VFloat x => Some (NFloat x)
  | _ => None
  end.

Definition arith (iop : Z -> Z -> Z) (fop : float -> float -> float)
    (a b : value) : result value :=
  match to_number a, to_number b with
  | Some (NInt m), Some (NInt n) => OK (VInt (iop m n))
  | Some (NInt m), Some (NFloat y) => x ← float_of_Z m; OK (VFloat (fop x y))
  | Some (NFloat x), Some (NInt n) => y ← float_of_Z n; OK (VFloat (fop x y))
  | Some (NFloat x), Some (NFloat y) => OK (VFloat (fop x y))
  | _, _ => Raise TypeError
  end.

(** [a + b] and [a - b] on numbers; any other operand is a TypeError
    (the left operand of every addition below is a running total that
    starts at the integer 0). *)
Definition py_add : value -> value -> result value := arith Z.add PrimFloat.add.
Definition py_sub : value -> value -> result value := arith Z.sub PrimFloat.sub.

(** [sum(xs)]: additions from the left, starting at the integer 0.
    (CPython from 3.12 on adds floats with a compensation term; integer
    sums, which the statements below single out, are exact either way.) *)
Fixpoint sum_from (acc : value) (xs : list value) : result value :=
  match xs with
  | [] => OK acc
  | x :: xs' => acc' ← py_add acc x; sum_from acc' xs'
  end.

Definition py_sum (xs : list value) : result value := sum_from (VInt 0) xs.

(** [v == s] for a string literal [s]: only an equal string is equal. *)
Definition eq_str (v : value) (s : string) : bool :=
  match v with
  | VStr s' => String.eqb s' s
  | _ => false
  end.

(** ** Attribute access *)

(** [v.name]: defined on an instance that holds the attribute; [None],
    the other scalars and lists have none of the attributes read here. *)
Definition getattr (h : heap) (v : value) (name : string) : result value :=
  match v with
  | VRef l =>
      match h !! l with
      | Some (Instance _ attrs) => of_option AttributeError (alist_get name attrs)
      | _ => Raise AttributeError
      end
  | _ => Raise AttributeError
  end.

(** [self.name = v]: the name has to be a slot unless the class keeps a
    [__dict__]; the object is updated in place. *)
Definition setattr (h : heap) (self : loc) (name : string) (v : value)
    : result heap :=
  match h !! self with
  | Some (Instance c attrs) =>
      if mem name (slots c) || has_dict c
      then OK (<[self := Instance c (alist_set name v attrs)]> h)
      else Raise AttributeError
  | _ => Raise AttributeError
  end.

Arguments getattr : simpl never.
Arguments setattr : simpl never.

(** [list(v)] for a list object. *)
Definition items_of (h : heap) (v : value) : result (list value) :=
  match v with
  | VRef l =>
      match h !! l with
      | Some (PyList items) => OK items
      | _ => Raise TypeError
      end
  | _ => Raise TypeError
  end.

(** [c(...)]: a new instance without attributes, then the initialiser. *)
Definition new (c : pyclass) (init : heap -> loc -> result heap) (h : heap)
    : result (loc * heap) :=
  let '(self, h0) := alloc h (Instance c []) in
  h1 ← init h0 self;
  OK (self, h1).

(** A call [f(k1=v1, ..., **kwargs)]: a name given twice is a TypeError
    ("got multiple values for keyword argument"). *)
Definition call_kwargs (explicit kwargs : alist) : result alist :=
  if existsb (fun k => mem k (keys explicit)) (keys kwargs)
  then Raise TypeError
  else OK (explicit ++ kwargs).

(** ** What order.py imports *)

(** util.py and objects.py are other modules of the package: the two
    sentinels of util.py and the defaults table of objects.py's
    SoftDollarTier are parameters of this development. *)
Class Env : Type := {
  UNSET_DOUBLE : float;
  UNSET_INTEGER : Z;
  SoftDollarTier_defaults : alist }.

Module Object.

(** Modelled from the spec: objects.py, with the record base [Object],
    is not among the sources.  The spec, section 4.1: "construct from
    positional values in field order and/or named overrides; unspecified
    fields take the type's declared default", and section 3: "no
    arbitrary dynamic fields are allowed except where an entity
    explicitly opts into an open extension bag".  Positional values pair
    off with the fields in declaration order, a named override wins over
    both, and a name that is no field is an AttributeError.  (The
    deep copy of mutable defaults the spec mentions has nothing to copy:
    every default of order.py is an immutable scalar.) *)
Definition __init__ (h : heap) (self : loc) (args : list value)
    (kwargs : alist) : result heap :=
  match h !! self with
  | Some (Instance c attrs) =>
      let d := alist_update
                 (alist_update (defaults c) (combine (keys (defaults c)) args))
                 kwargs in
      if forallb (fun k => mem k (slots c) || has_dict c) (keys d)
      then OK (<[self := Instance c (alist_update attrs d)]> h)
      else Raise AttributeError
  | _ => Raise AttributeError
  end.

(** Modelled from the spec: the comparison of two records' fields, as
    Python's dict equality: the same keys, with equal values. *)
Definition dict_eq (veq : value -> value -> option bool) (a b : alist)
    : option bool :=
  if negb (Nat.eqb (List.length a) (List.length b)) then Some false
  else
    fold_right
      (fun kv acc =>
         match alist_get (fst kv) b with
         | None => Some false
         | Some w =>
             r ← veq (snd kv) w;
             if (r : bool) then acc else Some false
         end)
      (Some true) a.

(** Modelled from the spec: section 3, "Two records of the same type are
    equal iff all field values are equal".  [veq] is [==] on the field
    values. *)
Definition __eq__ (veq : value -> value -> option bool) (h : heap)
    (self : loc) (other : value) : option bool :=
  match h !! self, other with
  | Some (Instance c a), VRef l =>
      match h !! l with
      | Some (Instance c' b) =>
          if String.eqb (__name__ c) (__name__ c')
          then dict_eq veq a b
          else Some false
      | _ => Some false
      end
  | _, _ => Some false
  end.

End Object.

(** ** The order conditions *)

(** The variants come first here, because [OrderCondition.createClass]
    names them; their methods are the ones of [OrderCondition] below. *)

Module PriceCondition.
Definition defaults : alist :=
  [ ("condType", VInt 1);
    ("conjunction", VStr "a");
    ("isMore", VBool true);
    ("price", VFloat 0);
    ("conId", VInt 0);
    ("exch", VStr "");
    ("triggerMethod", VInt 0) ].
Definition cls : pyclass :=
  PyClass "PriceCondition" ["OrderCondition"; "Object"]
    defaults (keys defaults) false.
End PriceCondition.

Module TimeCondition.
Definition defaults : alist :=
  [ ("condType", VInt 3);
    ("conjunction", VStr "a");
    ("isMore", VBool true);
    ("time", VStr "") ].
Definition cls : pyclass :=
  PyClass "TimeCondition" ["OrderCondition"; "Object"]
    defaults (keys defaults) false.
End TimeCondition.

Module MarginCondition.
Definition defaults : alist :=
  [ ("condType", VInt 4);
    ("conjunction", VStr "a");
    ("isMore", VBool true);
    ("percent", VInt 0) ].
Definition cls : pyclass :=
  PyClass "MarginCondition" ["OrderCondition"; "Object"]
    defaults (keys defaults) false.
End MarginCondition.

Module ExecutionCondition.
Definition defaults : alist :=
  [ ("condType", VInt 5);
    ("conjunction", VStr "a");
    ("secType", VStr "");
    ("exch", VStr "");
    ("symbol", VStr "") ].
Definition cls : pyclass :=
  PyClass "ExecutionCondition" ["OrderCondition"; "Object"]
    defaults (keys defaults) false.
End ExecutionCondition.

Module VolumeCondition.
Definition defaults : alist :=
  [ ("condType", VInt 6);
    ("conjunction", VStr "a");
    ("isMore", VBool true);
    ("volume", VInt 0);
    ("conId", VInt 0);
    ("exch", VStr "") ].
Definition cls : pyclass :=
  PyClass "VolumeCondition" ["OrderCondition"; "Object"]
    defaults (keys defaults) false.
End VolumeCondition.

Module PercentChangeCondition.
Definition defaults : alist :=
  [ ("condType", VInt 7);
    ("conjunction", VStr "a");
    ("isMore", VBool true);
    ("changePercent", VFloat 0);
    ("conId", VInt 0);
    ("exch", VStr "") ].
Definition cls : pyclass :=
  PyClass "PercentChangeCondition" ["OrderCondition"; "Object"]
    defaults (keys defaults) false.
End PercentChangeCondition.

Module OrderCondition.

(** [__slots__ = ()] and no [defaults] of its own: the base class of
    the family has no field. *)
Definition cls : pyclass :=
  PyClass "OrderCondition" ["Object"] [] [] false.

(** [d[k]] on a dict with integer keys. *)
Fixpoint subscript {A} (d : list (Z * A)) (k : Z) : result A :=
  match d with
  | [] => Raise KeyError
  | (k', a) :: d' => if k =? k' then OK a else subscript d' k
  end.

Definition createClass (condType : Z) : result pyclass :=
  let d :=
    [ (1, PriceCondition.cls);
      (3, TimeCondition.cls);
      (4, MarginCondition.cls);
      (5, ExecutionCondition.cls);
      (6, VolumeCondition.cls);
      (7, PercentChangeCondition.cls) ] in
  subscript d condType.

(** Both return [self], the reference they were called on. *)
Definition And (h : heap) (self : loc) : result (heap * value) :=
  h' ← setattr h self "conjunction" (VStr "a");
  OK (h', VRef self).

Definition Or (h : heap) (self : loc) : result (heap * value) :=
  h' ← setattr h self "conjunction" (VStr "o");
  OK (h', VRef self).

(** The concrete variants. *)
Definition variants : list pyclass :=
  [ PriceCondition.cls; TimeCondition.cls; MarginCondition.cls;
    ExecutionCondition.cls; VolumeCondition.cls;
    PercentChangeCondition.cls ].

End OrderCondition.

(** ** The order status *)

Module OrderStatus.
Definition defaults : alist :=
  [ ("orderId", VInt 0);
    ("status", VStr "");
    ("filled", VInt 0);
    ("remaining", VInt 0);
    ("avgFillPrice", VFloat 0);
    ("permId", VInt 0);
    ("parentId", VInt 0);
    ("lastFillPrice", VFloat 0);
    ("clientId", VInt 0);
    ("whyHeld", VStr "");
    ("mktCapPrice", VFloat 0);
    ("lastLiquidity", VInt 0) ].
Definition cls : pyclass :=
  PyClass "OrderStatus" ["Object"] defaults (keys defaults) false.

Definition PendingSubmit := "PendingSubmit".
Definition PendingCancel := "PendingCancel".
Definition PreSubmitted := "PreSubmitted".
Definition Submitted := "Submitted".
Definition ApiPending := "ApiPending".
Definition ApiCancelled := "ApiCancelled".
Definition Cancelled := "Cancelled".
Definition Filled := "Filled".
Definition Inactive := "Inactive".

Definition DoneStates : gset string :=
  {[ "Filled"; "Cancelled"; "ApiCancelled" ]}.
Definition ActiveStates : gset string :=
  {[ "PendingSubmit"; "ApiPending"; "PreSubmitted"; "Submitted" ]}.
End OrderStatus.

(** [v in s] for a set of strings.  The operand is hashed first, which a
    list refuses; nothing but a string equals a string. *)
Definition contains (h : heap) (s : gset string) (v : value) : result bool :=
  match v with
  | VStr x => OK (bool_decide (x ∈ s))
  | VRef l =>
      match h !! l with
      | Some (PyList _) => Raise TypeError
      | _ => OK false
      end
  | _ => OK false
  end.

(** ** Orders *)

Section Collaborators.
Context `{Env}.

(** Modelled from the spec: objects.py's SoftDollarTier is not among the
    sources.  Section 3 asks for "a default-valued instance" of it, so it
    is a record class over its table of defaults, like the ones here. *)
Definition SoftDollarTier : pyclass :=
  PyClass "SoftDollarTier" ["Object"]
    SoftDollarTier_defaults (keys SoftDollarTier_defaults) false.
End Collaborators.

Module Order.
Section Order.
Context `{Env}.

Definition defaults : alist :=
  [
    ("orderId", VInt 0);
    ("clientId", VInt 0);
    ("permId", VInt 0);
    ("action", VStr "");
    ("totalQuantity", VFloat 0);
    ("orderType", VStr "");
    ("lmtPrice", VFloat UNSET_DOUBLE);
    ("auxPrice", VFloat UNSET_DOUBLE);
    ("tif", VStr "");
    ("activeStartTime", VStr "");
    ("activeStopTime", VStr "");
    ("ocaGroup", VStr "");
    ("ocaType", VInt 0);
    ("orderRef", VStr "");
    ("transmit", VBool true);
    ("parentId", VInt 0);
    ("blockOrder", VBool false);
    ("sweepToFill", VBool false);
    ("displaySize", VInt 0);
    ("triggerMethod", VInt 0);
    ("outsideRth", VBool false);
    ("hidden", VBool false);
    ("goodAfterTime", VStr "");
    ("goodTillDate", VStr "");
    ("rule80A", VStr "");
    ("allOrNone", VBool false);
    ("minQty", VInt UNSET_INTEGER);
    ("percentOffset", VFloat UNSET_DOUBLE);
    ("overridePercentageConstraints", VBool false);
    ("trailStopPrice", VFloat UNSET_DOUBLE);
    ("trailingPercent", VFloat UNSET_DOUBLE);
    ("faGroup", VStr "");
    ("faProfile", VStr "");
    ("faMethod", VStr "");
    ("faPercentage", VStr "");
    ("designatedLocation", VStr "");
    ("openClose", VStr "O");
    ("origin", VInt 0);
    ("shortSaleSlot", VInt 0);
    ("exemptCode", VInt (-1));
    ("discretionaryAmt", VInt 0);
    ("eTradeOnly", VBool true);
    ("firmQuoteOnly", VBool true);
    ("nbboPriceCap", VFloat UNSET_DOUBLE);
    ("optOutSmartRouting", VBool false);
    ("auctionStrategy", VInt 0);
    ("startingPrice", VFloat UNSET_DOUBLE);
    ("stockRefPrice", VFloat UNSET_DOUBLE);
    ("delta", VFloat UNSET_DOUBLE);
    ("stockRangeLower", VFloat UNSET_DOUBLE);
    ("stockRangeUpper", VFloat UNSET_DOUBLE);
    ("randomizePrice", VBool false);
    ("randomizeSize", VBool false);
    ("volatility", VFloat UNSET_DOUBLE);
    ("volatilityType", VInt UNSET_INTEGER);
    ("deltaNeutralOrderType", VStr "");
    ("deltaNeutralAuxPrice", VFloat UNSET_DOUBLE);
    ("deltaNeutralConId", VInt 0);
    ("deltaNeutralSettlingFirm", VStr "");
    ("deltaNeutralClearingAccount", VStr "");
    ("deltaNeutralClearingIntent", VStr "");
    ("deltaNeutralOpenClose", VStr "");
    ("deltaNeutralShortSale", VBool false);
    ("deltaNeutralShortSaleSlot", VInt 0);
    ("deltaNeutralDesignatedLocation", VStr "");
    ("continuousUpdate", VBool false);
    ("referencePriceType", VInt UNSET_INTEGER);
    ("basisPoints", VFloat UNSET_DOUBLE);
    ("basisPointsType", VInt UNSET_INTEGER);
    ("scaleInitLevelSize", VInt UNSET_INTEGER);
    ("scaleSubsLevelSize", VInt UNSET_INTEGER);
    ("scalePriceIncrement", VFloat UNSET_DOUBLE);
    ("scalePriceAdjustValue", VFloat UNSET_DOUBLE);
    ("scalePriceAdjustInterval", VInt UNSET_INTEGER);
    ("scaleProfitOffset", VFloat UNSET_DOUBLE);
    ("scaleAutoReset", VBool false);
    ("scaleInitPosition", VInt UNSET_INTEGER);
    ("scaleInitFillQty", VInt UNSET_INTEGER);
    ("scaleRandomPercent", VBool false);
    ("scaleTable", VStr "");
    ("hedgeType", VStr "");
    ("hedgeParam", VStr "");
    ("account", VStr "");
    ("settlingFirm", VStr "");
    ("clearingAccount", VStr "");
    ("clearingIntent", VStr "");
    ("algoStrategy", VStr "");
    ("algoParams", VNone);
    ("smartComboRoutingParams", VNone);
    ("algoId", VStr "");
    ("whatIf", VBool false);
    ("notHeld", VBool false);
    ("solicited", VBool false);
    ("modelCode", VStr "");
    ("orderComboLegs", VNone);
    ("orderMiscOptions", VNone);
    ("referenceContractId", VInt 0);
    ("peggedChangeAmount", VFloat 0);
    ("isPeggedChangeAmountDecrease", VBool false);
    ("referenceChangeAmount", VFloat 0);
    ("referenceExchangeId", VStr "");
    ("adjustedOrderType", VStr "");
    ("triggerPrice", VFloat UNSET_DOUBLE);
    ("adjustedStopPrice", VFloat UNSET_DOUBLE);
    ("adjustedStopLimitPrice", VFloat UNSET_DOUBLE);
    ("adjustedTrailingAmount", VFloat UNSET_DOUBLE);
    ("adjustableTrailingUnit", VInt 0);
    ("lmtPriceOffset", VFloat UNSET_DOUBLE);
    ("conditions", VNone);
    ("conditionsCancelOrder", VBool false);
    ("conditionsIgnoreRth", VBool false);
    ("extOperator", VStr "");
    ("softDollarTier", VNone);
    ("cashQty", VFloat UNSET_DOUBLE);
    ("mifid2DecisionMaker", VStr "");
    ("mifid2DecisionAlgo", VStr "");
    ("mifid2ExecutionTrader", VStr "");
    ("mifid2ExecutionAlgo", VStr "");
    ("dontUseAutoPriceForHedge", VBool false);
    ("isOmsContainer", VBool false);
    ("discretionaryUpToLimitPrice", VBool false);
    ("autoCancelDate", VStr "");
    ("filledQuantity", VFloat UNSET_DOUBLE);
    ("refFuturesConId", VInt 0);
    ("autoCancelParent", VBool false);
    ("shareholder", VStr "");
    ("imbalanceOnly", VBool false);
    ("routeMarketableToBbo", VBool false);
    ("parentPermId", VInt 0);
    ("usePriceMgmtAlgo", VBool false) ].

Definition cls : pyclass :=
  PyClass "Order" ["Object"] defaults (keys defaults) false.

Definition __init__ (h : heap) (self : loc) (args : list value)
    (kwargs : alist) : result heap :=
  h ← Object.__init__ h self args kwargs;
  conditions ← getattr h (VRef self) "conditions";
  h ← (if negb (truthy h conditions)
       then let '(l, h) := alloc h (PyList []) in
            setattr h self "conditions" (VRef l)
       else OK h);
  softDollarTier ← getattr h (VRef self) "softDollarTier";
  h ← (if negb (truthy h softDollarTier)
       then '(l, h) ← new SoftDollarTier
                        (fun h self => Object.__init__ h self [] []) h;
            setattr h self "softDollarTier" (VRef l)
       else OK h);
  OK h.

(** [self is other] *)
Definition __eq__ (self : loc) (other : value) : bool :=
  match other with
  | VRef l => Nat.eqb self l
  | _ => false
  end.

Definition __hash__ (self : loc) : Z := py_id self.

End Order.
End Order.

Arguments Order.defaults : simpl never.

Module LimitOrder.
Section LimitOrder.
Context `{Env}.

(** [__slots__ = ()]: the fields are Order's. *)
Definition cls : pyclass :=
  PyClass "LimitOrder" ["Order"; "Object"]
    Order.defaults (slots Order.cls) false.

Definition __init__ (h : heap) (self : loc)
    (action totalQuantity lmtPrice : value) (kwargs : alist)
    : result heap :=
  kw ← call_kwargs
         [ ("orderType", VStr "LMT"); ("action", action);
           ("totalQuantity", totalQuantity); ("lmtPrice", lmtPrice) ]
         kwargs;
  Order.__init__ h self [] kw.
End LimitOrder.
End LimitOrder.

Module MarketOrder.
Section MarketOrder.
Context `{Env}.

Definition cls : pyclass :=
  PyClass "MarketOrder" ["Order"; "Object"]
    Order.defaults (slots Order.cls) false.

Definition __init__ (h : heap) (self : loc)
    (action totalQuantity : value) (kwargs : alist) : result heap :=
  kw ← call_kwargs
         [ ("orderType", VStr "MKT"); ("action", action);
           ("totalQuantity", totalQuantity) ]
         kwargs;
  Order.__init__ h self [] kw.
End MarketOrder.
End MarketOrder.

Module StopOrder.
Section StopOrder.
Context `{Env}.

Definition cls : pyclass :=
  PyClass "StopOrder" ["Order"; "Object"]
    Order.defaults (slots Order.cls) false.

Definition __init__ (h : heap) (self : loc)
    (action totalQuantity stopPrice : value) (kwargs : alist)
    : result heap :=
  kw ← call_kwargs
         [ ("orderType", VStr "STP"); ("action", action);
           ("totalQuantity", totalQuantity); ("auxPrice", stopPrice) ]
         kwargs;
  Order.__init__ h self [] kw.
End StopOrder.
End StopOrder.

Module StopLimitOrder.
Section StopLimitOrder.
Context `{Env}.

Definition cls : pyclass :=
  PyClass "StopLimitOrder" ["Order"; "Object"]
    Order.defaults (slots Order.cls) false.

Definition __init__ (h : heap) (self : loc)
    (action totalQuantity lmtPrice stopPrice : value) (kwargs : alist)
    : result heap :=
  kw ← call_kwargs
         [ ("orderType", VStr "STP LMT"); ("action", action);
           ("totalQuantity", totalQuantity); ("lmtPrice", lmtPrice);
           ("auxPrice", stopPrice) ]
         kwargs;
  Order.__init__ h self [] kw.
End StopLimitOrder.
End StopLimitOrder.

(** ** The [==] operator *)

(** Exact comparison of a float with an integer. *)
Definition float_eq_Z (x : float) (n : Z) : bool :=
  match Prim2SF x with
  | S754_zero _ => n =? 0
  | S754_finite s m e =>
      if 0 <=? e then n =? cond_Zopp s (Z.pos m) * 2 ^ e
      else n * 2 ^ (- e) =? cond_Zopp s (Z.pos m)
  | _ => false
  end.

(** [a == b] on scalars: numbers compare by value across [bool], [int]
    and [float]; nan differs from itself. *)
Definition scalar_eq (a b : value) : bool :=
  match a, b with
  | VNone, VNone => true
  | VStr s, VStr s' => String.eqb s s'
  | _, _ =>
      match to_number a, to_number b with
      | Some (NInt m), Some (NInt n) => m =? n
      | Some (NFloat x), Some (NFloat y) => PrimFloat.eqb x y
      | Some (NInt m), Some (NFloat y) => float_eq_Z y m
      | Some (NFloat x), Some (NInt n) => float_eq_Z x n
      | _, _ => false
      end
  end.

(** [a is b], as far as the model knows: two references to one object. *)
Definition py_is (a b : value) : bool :=
  match a, b with
  | VRef l, VRef l' => Nat.eqb l l'
  | _, _ => false
  end.

(** [a == b].  An instance answers with the [__eq__] of its class, Order's
    for an Order and Object's otherwise; containers compare their elements
    with [is] first and [==] second.  The recursion follows references, so
    it is bounded by [fuel]; [None] means the bound was reached. *)
Fixpoint py_eq (fuel : nat) (h : heap) (a b : value) : option bool :=
  match fuel with
  | O => None
  | S n =>
      let elem_eq x y := if py_is x y then Some true else py_eq n h x y in
      match a with
      | VRef l =>
          match h !! l with
          | Some (Instance c _) =>
              if issubclass c "Order" then Some (Order.__eq__ l b)
              else Object.__eq__ elem_eq h l b
          | Some (PyList xs) =>
              match b with
              | VRef l' =>
                  match h !! l' with
                  | Some (PyList ys) =>
                      if negb (Nat.eqb (List.length xs) (List.length ys))
                      then Some false
                      else
                        fold_right
                          (fun xy acc =>
                             r ← elem_eq (fst xy) (snd xy);
                             if (r : bool) then acc else Some false)
                          (Some true) (combine xs ys)
                  | _ => Some false
                  end
              | _ => Some false
              end
          | None => Some false
          end
      | _ =>
          match b with
          | VRef _ => Some false
          | _ => Some (scalar_eq a b)
          end
      end
  end.

(** ** Trades *)

(** A list comprehension [[x for x in xs if p(x)]]. *)
Fixpoint comprehension_if (p : value -> result bool) (xs : list value)
    : result (list value) :=
  match xs with
  | [] => OK []
  | x :: xs' =>
      b ← p x;
      r ← comprehension_if p xs';
      OK (if (b : bool) then x :: r else r)
  end.

(** [sum(f(x) for x in xs)]: each element is computed when the running
    total reaches it. *)
Fixpoint sum_generator (f : value -> result value) (acc : value)
    (xs : list value) : result value :=
  match xs with
  | [] => OK acc
  | x :: xs' =>
      y ← f x;
      acc' ← py_add acc y;
      sum_generator f acc' xs'
  end.

Module Trade.

Definition events : list string :=
  [ "statusEvent"; "modifyEvent"; "fillEvent";
    "commissionReportEvent"; "filledEvent";
    "cancelEvent"; "cancelledEvent" ].

Definition defaults : alist :=
  [ ("contract", VNone);
    ("order", VNone);
    ("orderStatus", VNone);
    ("fills", VNone);
    ("log", VNone) ].

Definition cls : pyclass :=
  PyClass "Trade" ["Object"] defaults (keys defaults ++ events) true.

Definition isActive (h : heap) (self : loc) : result bool :=
  orderStatus ← getattr h (VRef self) "orderStatus";
  status ← getattr h orderStatus "status";
  contains h OrderStatus.ActiveStates status.

Definition isDone (h : heap) (self : loc) : result bool :=
  orderStatus ← getattr h (VRef self) "orderStatus";
  status ← getattr h orderStatus "status";
  contains h OrderStatus.DoneStates status.

(** The filtered list of the BAG case is a temporary of the call: it is
    kept as a plain sequence and not put in the store. *)
Definition filled (h : heap) (self : loc) : result value :=
  fills ← getattr h (VRef self) "fills";
  contract ← getattr h (VRef self) "contract";
  secType ← getattr h contract "secType";
  fills ← items_of h fills;
  fills ← (if eq_str secType "BAG"
           then comprehension_if
                  (fun f =>
                     contract ← getattr h f "contract";
                     secType ← getattr h contract "secType";
                     OK (eq_str secType "BAG"))
                  fills
           else OK fills);
  sum_generator
    (fun f => execution ← getattr h f "execution";
              getattr h execution "shares")
    (VInt 0) fills.

Definition remaining (h : heap) (self : loc) : result value :=
  order ← getattr h (VRef self) "order";
  totalQuantity ← getattr h order "totalQuantity";
  filled ← filled h self;
  py_sub totalQuantity filled.

End Trade.

(** ** Vocabulary of the statements *)

(** A reference into the store, or a scalar. *)
Definition valid (h : heap) (v : value) : Prop :=
  match v with
  | VRef l => (l < List.length h)%nat
  | _ => True
  end.

(** Not the float nan, which differs from itself. *)
Definition not_nan (v : value) : bool :=
  match v with
  | VFloat x => PrimFloat.eqb x x
  | _ => true
  end.

(** What [Trade.filled] reads of one fill: the security type of its
    contract and the shares of its execution. *)
Record fill_view : Type := FillView {
  fill_secType : value;
  fill_shares : value }.

Definition fill_at (h : heap) (f : value) (v : fill_view) : Prop :=
  exists contract execution,
    getattr h f "contract" = OK contract /\
    getattr h contract "secType" = OK (fill_secType v) /\
    getattr h f "execution" = OK execution /\
    getattr h execution "shares" = OK (fill_shares v).

(** The trade at [self] has a contract of security type [secType] and the
    fills [fills], in the order of its list. *)
Definition trade_at (h : heap) (self : loc) (secType : value)
    (fills : list fill_view) : Prop :=
  exists fills_ref items contract,
    getattr h (VRef self) "fills" = OK fills_ref /\
    items_of h fills_ref = OK items /\
    Forall2 (fill_at h) items fills /\
    getattr h (VRef self) "contract" = OK contract /\
    getattr h contract "secType" = OK secType.

(** The fills that count towards the filled quantity, in the spec's
    words: those whose own contract is a BAG when the trade's contract is
    one, and all of them otherwise. *)
Definition counted_fills (secType : value) (fills : list fill_view)
    : list fill_view :=
  if eq_str secType "BAG"
  then List.filter (fun v => eq_str (fill_secType v) "BAG") fills
  else fills.

Section OrderVocabulary.
Context `{Env}.

(** Order and the four classes derived from it. *)
Definition order_classes : list pyclass :=
  [ Order.cls; LimitOrder.cls; MarketOrder.cls; StopOrder.cls;
    StopLimitOrder.cls ].

(** The field values after the base initialisation of an order: the
    declared defaults, overridden by the positional and then by the
    named arguments. *)
Definition base_fields (args : list value) (kwargs : alist) : alist :=
  alist_update
    (alist_update Order.defaults (combine (keys Order.defaults) args))
    kwargs.

(** [c(...)] for one of the order classes [c], with [init] its
    initialiser applied to the arguments, constructs an order when
    started in [h]: it succeeds exactly when no override names a field
    the constructor fixes and every override names a field of Order;
    the new order is an instance of [c] that was not in the store
    before, it holds the fixed values, and it holds every override
    (the last one given for a name) except that the fix-up of
    [Order.__init__] decides on [conditions] and [softDollarTier]. *)
Definition constructs (c : pyclass) (init : heap -> loc -> result heap)
    (h : heap) (fixed overrides : alist) : Prop :=
  (succeeds (new c init h) <->
     forall k, In k (keys overrides) ->
       ~ In k (keys fixed) /\ In k (keys Order.defaults)) /\
  forall self h', new c init h = OK (self, h') ->
    self = List.length h /\
    (exists attrs, h' !! self = Some (Instance c attrs)) /\
    (forall k v, In (k, v) fixed -> getattr h' (VRef self) k = OK v) /\
    (forall k v, alist_get k (rev overrides) = Some v ->
       k <> "conditions" -> k <> "softDollarTier" ->
       getattr h' (VRef self) k = OK v) /\
    (forall k v, alist_get k Order.defaults = Some v ->
       ~ In k (keys fixed) -> ~ In k (keys overrides) ->
       k <> "conditions" -> k <> "softDollarTier" ->
       getattr h' (VRef self) k = OK v).
End OrderVocabulary.

Section OrderLike.
Context `{Env}.

(** A class whose instances have Order's fields and no others. *)
Definition order_like (c : pyclass) : Prop :=
  defaults c = Order.defaults /\
  slots c = keys Order.defaults /\
  has_dict c = false.
End OrderLike.

(** [self.conjunction] has become [s] between [h] and [h'], and nothing
    else has changed: not another attribute of [self], not its class, not
    another object, not the size of the store. *)
Definition conjunction_set (h h' : heap) (self : loc) (s : string) : Prop :=
  getattr h' (VRef self) "conjunction" = OK (VStr s) /\
  (forall name, name <> "conjunction" ->
     getattr h' (VRef self) name = getattr h (VRef self) name) /\
  (forall c attrs, h !! self = Some (Instance c attrs) ->
     exists attrs', h' !! self = Some (Instance c attrs')) /\
  (forall l, l <> self -> h' !! l = h !! l) /\
  List.length h' = List.length h.

(** ** Data of the examples *)

(** One choice of the imported values: the largest finite double and the
    largest 32-bit integer as the sentinels, and three string fields for
    SoftDollarTier. *)
Definition example_env : Env :=
  {| UNSET_DOUBLE := 0x1.fffffffffffffp+1023;
     UNSET_INTEGER := 2 ^ 31 - 1;
     SoftDollarTier_defaults :=
       [ ("name", VStr ""); ("val", VStr ""); ("displayName", VStr "") ] |}.

(** An instance of a collaborating module's class (Contract, Execution,
    Fill) with the given fields. *)
Definition record (name : string) (attrs : alist) : object :=
  Instance (PyClass name ["Object"] attrs (keys attrs) false) attrs.

(** A store with three trades on one order of 200: a stock trade with
    fills of 100, 50 and -20 shares, a BAG trade with a fill of 75 shares
    on the BAG and a fill of 100 on a leg, and a stock trade filled with
    100, 50 and 100 shares. *)
Definition example_store : heap :=
  [ (* 0 *) record "Contract" [("secType", VStr "STK")];
    (* 1 *) record "Contract" [("secType", VStr "BAG")];
    (* 2 *) record "Execution" [("shares", VInt 100)];
    (* 3 *) record "Execution" [("shares", VInt 50)];
    (* 4 *) record "Execution" [("shares", VInt (-20))];
    (* 5 *) record "Execution" [("shares", VInt 75)];
    (* 6 *) record "Fill" [("contract", VRef 0); ("execution", VRef 2)];
    (* 7 *) record "Fill" [("contract", VRef 0); ("execution", VRef 3)];
    (* 8 *) record "Fill" [("contract", VRef 0); ("execution", VRef 4)];
    (* 9 *) record "Fill" [("contract", VRef 1); ("execution", VRef 5)];
    (* 10 *) record "Fill" [("contract", VRef 0); ("execution", VRef 2)];
    (* 11 *) PyList [VRef 6; VRef 7; VRef 8];
    (* 12 *) PyList [VRef 9; VRef 10];
    (* 13 *) PyList [VRef 6; VRef 7; VRef 10];
    (* 14 *) Instance (@Order.cls example_env)
               (alist_set "totalQuantity" (VInt 200)
                  (@Order.defaults example_env));
    (* 15 *) Instance OrderStatus.cls
               (alist_set "status" (VStr "Submitted") OrderStatus.defaults);
    (* 16 *) Instance Trade.cls
               [ ("contract", VRef 0); ("order", VRef 14);
                 ("orderStatus", VRef 15); ("fills", VRef 11);
                 ("log", VNone) ];
    (* 17 *) Instance Trade.cls
               [ ("contract", VRef 1); ("order", VRef 14);
                 ("orderStatus", VRef 15); ("fills", VRef 12);
                 ("log", VNone) ];
    (* 18 *) Instance Trade.cls
               [ ("contract", VRef 0); ("order", VRef 14);
                 ("orderStatus", VRef 15); ("fills", VRef 13);
                 ("log", VNone) ] ].

(** Two orders with the same field values and two order statuses with the
    same field values. *)
Definition example_twins : heap :=
  [ (* 0 *) Instance (@LimitOrder.cls example_env) (@Order.defaults example_env);
    (* 1 *) Instance (@LimitOrder.cls example_env) (@Order.defaults example_env);
    (* 2 *) Instance OrderStatus.cls OrderStatus.defaults;
    (* 3 *) Instance OrderStatus.cls OrderStatus.defaults ].

(** ** The construction of a trade *)

(** [Trade.__init__], in a module of its own next to [Trade]'s queries. *)
Module TradeInit.
Section TradeInit.

(** eventkit's [Event] belongs to another package: the object that a call
    [Event(name)] creates is a parameter. *)
Variable Event : string -> object.

(** [self.name = Event(name)] *)
Definition set_event (name : string) (h : heap) (self : loc) : result heap :=
  let '(l, h) := alloc h (Event name) in
  setattr h self name (VRef l).

Definition __init__ (h : heap) (self : loc) (args : list value)
    (kwargs : alist) : result heap :=
  h ← Object.__init__ h self args kwargs;
  h ← set_event "statusEvent" h self;
  h ← set_event "modifyEvent" h self;
  h ← set_event "fillEvent" h self;
  h ← set_event "commissionReportEvent" h self;
  h ← set_event "filledEvent" h self;
  h ← set_event "cancelEvent" h self;
  h ← set_event "cancelledEvent" h self;
  OK h.


End TradeInit.
End TradeInit.

(** ** Vocabulary of the further statements *)


(** What [Trade.filled] reads of a fill when the trade's contract has the
    security type [secType]: for a BAG, the fill's own security type and,
    only if that is BAG too, its shares; otherwise the shares alone. *)
Definition fill_read (h : heap) (secType : value) (f : value)
    (v : fill_view) : Prop :=
  (eq_str secType "BAG" = true ->
     exists contract,
       getattr h f "contract" = OK contract /\
       getattr h contract "secType" = OK (fill_secType v)) /\
  (eq_str secType "BAG" = false \/ eq_str (fill_secType v) "BAG" = true ->
     exists execution,
       getattr h f "execution" = OK execution /\
       getattr h execution "shares" = OK (fill_shares v)).

(** Whether a fill counts towards the filled quantity of a trade on
    [secType]. *)
Definition counts (secType : value) (v : fill_view) : bool :=
  negb (eq_str secType "BAG") || eq_str (fill_secType v) "BAG".


(** A BAG trade with a fill on the BAG and a leg fill that has neither a
    readable execution nor numeric shares. *)
Definition example_bag_store : heap :=
  [ (* 0 *) record "Contract" [("secType", VStr "BAG")];
    (* 1 *) record "Contract" [("secType", VStr "STK")];
    (* 2 *) record "Execution" [("shares", VInt 75)];
    (* 3 *) record "Fill" [("contract", VRef 0); ("execution", VRef 2)];
    (* 4 *) record "Fill" [("contract", VRef 1); ("execution", VNone)];
    (* 5 *) PyList [VRef 3; VRef 4];
    (* 6 *) Instance Trade.cls
              [ ("contract", VRef 0); ("order", VNone);
                ("orderStatus", VNone); ("fills", VRef 5);
                ("log", VNone) ] ].

(** [xs.append(x)] on the list object at [l]. *)
Definition list_append (h : heap) (l : loc) (x : value) : result heap :=
  match h !! l with
  | Some (PyList items) => OK (<[l := PyList (items ++ [x])]> h)
  | _ => Raise AttributeError
  end.

(** * Properties *)

(** ** The error monad *)

Lemma bind_OK {A B} (m : result A) (f : A -> result B) (b : B) :
  m ≫= f = OK b <-> exists a, m = OK a /\ f a = OK b.
Proof.
  destruct m as [a|e]; simpl.
  - split; [eauto | intros (a' & [= <-] & Hf); exact Hf].
  - split; [discriminate | intros (a' & [=] & _)].
Qed.

Lemma OK_inj {A} (a b : A) : OK a = OK b -> a = b.
Proof. by intros [= ->]. Qed.

(** ** Dict literals *)

Lemma mem_true (k : string) (ks : list string) : mem k ks = true <-> In k ks.
Proof.
  unfold mem. rewrite existsb_exists. split.
  - intros (x & Hin & Heq). apply String.eqb_eq in Heq. by subst.
  - intros Hin. exists k. split; [done | apply String.eqb_refl].
Qed.

Lemma mem_false (k : string) (ks : list string) : mem k ks = false <-> ~ In k ks.
Proof.
  rewrite <- mem_true. destruct (mem k ks); naive_solver.
Qed.

Lemma alist_get_set (k k' : string) (v : value) (d : alist) :
  alist_get k' (alist_set k v d)
  = if String.eqb k' k then Some v else alist_get k' d.
Proof.
  induction d as [|[k0 v0] d IH]; simpl.
  - done.
  - destruct (String.eqb_spec k k0) as [->|Hk]; simpl.
    + by destruct (String.eqb_spec k' k0).
    + destruct (String.eqb_spec k' k0) as [->|Hk'].
      * destruct (String.eqb_spec k0 k); [congruence | done].
      * exact IH.
Qed.

Lemma alist_get_set_eq (k : string) (v : value) (d : alist) :
  alist_get k (alist_set k v d) = Some v.
Proof. by rewrite alist_get_set, String.eqb_refl. Qed.

Lemma alist_get_set_ne (k k' : string) (v : value) (d : alist) :
  k' <> k -> alist_get k' (alist_set k v d) = alist_get k' d.
Proof.
  intros Hne. rewrite alist_get_set.
  by destruct (String.eqb_spec k' k).
Qed.

Lemma alist_get_app (k : string) (d e : alist) :
  alist_get k (d ++ e)
  = match alist_get k d with Some v => Some v | None => alist_get k e end.
Proof.
  induction d as [|[k0 v0] d IH]; simpl; [done|].
  by destruct (String.eqb k k0).
Qed.

(** A later binding of the update wins over an earlier one and over the
    updated dict. *)
Lemma alist_get_update (k : string) (d e : alist) :
  alist_get k (alist_update d e)
  = match alist_get k (rev e) with
    | Some v => Some v
    | None => alist_get k d
    end.
Proof.
  unfold alist_update. revert d.
  induction e as [|[k0 v0] e IH]; intros d; simpl; [done|].
  rewrite IH, alist_get_app. simpl.
  destruct (alist_get k (rev e)); [done|].
  rewrite alist_get_set. by destruct (String.eqb k k0).
Qed.

Lemma alist_get_None (k : string) (d : alist) :
  alist_get k d = None <-> ~ In k (keys d).
Proof.
  induction d as [|[k0 v0] d IH]; simpl; [tauto|].
  destruct (String.eqb_spec k k0) as [->|Hne].
  - split; [done | intros Hn; destruct Hn; by left].
  - rewrite IH. split; [intros Hn [Heq|Hin]; [congruence | tauto] | tauto].
Qed.

Lemma alist_get_rev_None (k : string) (d : alist) :
  alist_get k (rev d) = None <-> ~ In k (keys d).
Proof.
  rewrite alist_get_None. unfold keys. rewrite map_rev, <- in_rev. tauto.
Qed.

Lemma forallb_keys_set (P : string -> bool) (k : string) (v : value) (d : alist) :
  forallb P (keys (alist_set k v d)) = forallb P (keys d) && P k.
Proof.
  induction d as [|[k0 v0] d IH]; simpl.
  - by rewrite andb_true_r.
  - destruct (String.eqb_spec k k0) as [->|Hne]; simpl.
    + destruct (P k0); simpl; [by rewrite andb_true_r | done].
    + rewrite IH. by rewrite andb_assoc.
Qed.

Lemma forallb_keys_update (P : string -> bool) (d e : alist) :
  forallb P (keys (alist_update d e))
  = forallb P (keys d) && forallb P (keys e).
Proof.
  unfold alist_update. revert d.
  induction e as [|[k0 v0] e IH]; intros d; simpl.
  - by rewrite andb_true_r.
  - rewrite IH, forallb_keys_set. simpl. by rewrite andb_assoc.
Qed.

Lemma keys_combine_subset (ks : list string) (args : list value) (k : string) :
  In k (keys (combine ks args)) -> In k ks.
Proof.
  revert args. induction ks as [|k0 ks IH]; intros [|a args]; simpl; try tauto.
  intros [->|Hin]; [by left | right; eauto].
Qed.

Lemma keys_set (k : string) (v : value) (d : alist) :
  keys (alist_set k v d) = if mem k (keys d) then keys d else keys d ++ [k].
Proof.
  induction d as [|[k0 v0] d IH]; simpl; [done|].
  destruct (String.eqb_spec k k0) as [->|Hne]; simpl; [done|].
  rewrite IH. by destruct (mem k (keys d)).
Qed.

Lemma alist_set_new (k : string) (v : value) (d : alist) :
  ~ In k (keys d) -> alist_set k v d = d ++ [(k, v)].
Proof.
  induction d as [|[k0 v0] d IH]; simpl; [done|].
  intros Hn. destruct (String.eqb_spec k k0) as [->|Hne]; [tauto|].
  rewrite IH; [done | tauto].
Qed.

Lemma NoDup_keys_set (k : string) (v : value) (d : alist) :
  NoDup (keys d) -> NoDup (keys (alist_set k v d)).
Proof.
  intros Hd. rewrite keys_set. destruct (mem k (keys d)) eqn:Hm; [done|].
  apply mem_false in Hm. apply NoDup_app. split_and!; [done| |apply NoDup_singleton].
  intros x Hx Hx'. apply list_elem_of_In in Hx. apply list_elem_of_singleton in Hx'. by subst.
Qed.

Lemma NoDup_keys_update (d e : alist) :
  NoDup (keys d) -> NoDup (keys (alist_update d e)).
Proof.
  unfold alist_update. revert d.
  induction e as [|[k v] e IH]; intros d Hd; simpl; [done|].
  apply IH. by apply NoDup_keys_set.
Qed.

Lemma alist_get_rev (k : string) (d : alist) :
  NoDup (keys d) -> alist_get k (rev d) = alist_get k d.
Proof.
  induction d as [|[k0 v0] d IH]; simpl; [done|].
  intros Hd. apply NoDup_cons in Hd as [Hk0 Hd].
  rewrite alist_get_app, IH by done. simpl.
  destruct (String.eqb_spec k k0) as [->|Hne].
  - replace (alist_get k0 d) with (@None value); [done|].
    symmetry. apply alist_get_None. intros Hin. apply Hk0. by apply list_elem_of_In.
  - by destruct (alist_get k d).
Qed.

Lemma alist_update_NoDup (a d : alist) :
  NoDup (keys (a ++ d)) -> alist_update a d = a ++ d.
Proof.
  unfold alist_update. revert a.
  induction d as [|[k v] d IH]; intros a Hd; simpl.
  - by rewrite app_nil_r.
  - assert (~ In k (keys a)) as Hk.
    { unfold keys in Hd. rewrite map_app in Hd. simpl in Hd.
      apply NoDup_app in Hd as (_ & Hd & _). intros Hin.
      apply (Hd k); [by apply list_elem_of_In | left]. }
    rewrite alist_set_new by done.
    rewrite IH; [by rewrite <- app_assoc | by rewrite <- app_assoc].
Qed.

(** ** The store *)

Lemma getattr_instance (h : heap) (l : loc) (c : pyclass) (attrs : alist)
    (name : string) :
  h !! l = Some (Instance c attrs) ->
  getattr h (VRef l) name = of_option AttributeError (alist_get name attrs).
Proof. intros Hl. unfold getattr. by rewrite Hl. Qed.

Lemma setattr_instance (h : heap) (self : loc) (c : pyclass) (attrs : alist)
    (name : string) (v : value) :
  h !! self = Some (Instance c attrs) ->
  (mem name (slots c) || has_dict c) = true ->
  setattr h self name v
  = OK (<[self := Instance c (alist_set name v attrs)]> h).
Proof. intros Hl Hm. unfold setattr. by rewrite Hl, Hm. Qed.

(** ** Truth values across store updates *)

Lemma truthy_insert_instance (h : heap) (l : loc) (c c' : pyclass)
    (a a' : alist) (v : value) :
  h !! l = Some (Instance c a) ->
  truthy (<[l := Instance c' a']> h) v = truthy h v.
Proof.
  intros Hl. destruct v as [| | | | |l0]; simpl; try done.
  destruct (decide (l0 = l)) as [->|Hne].
  - rewrite list_lookup_insert_eq by (by eapply lookup_lt_Some).
    by rewrite Hl.
  - by rewrite list_lookup_insert_ne.
Qed.

Lemma truthy_alloc_instance (h : heap) (c : pyclass) (a : alist) (v : value) :
  truthy (h ++ [Instance c a]) v = truthy h v.
Proof.
  destruct v as [| | | | |l]; simpl; try done.
  destruct (decide (l < List.length h)%nat) as [Hlt|Hge].
  - by rewrite lookup_app_l.
  - rewrite (lookup_ge_None_2 h l) by lia.
    rewrite lookup_app_r by lia.
    by destruct (l - List.length h)%nat as [|n].
Qed.

Lemma truthy_false_valid (h : heap) (v : value) :
  truthy h v = false -> valid h v.
Proof.
  destruct v as [| | | | |l]; simpl; try done.
  destruct (h !! l) as [o|] eqn:Hl; [|done].
  intros _. by eapply lookup_lt_Some.
Qed.

Lemma truthy_alloc_valid (h : heap) (o : object) (v : value) :
  valid h v -> truthy (h ++ [o]) v = truthy h v.
Proof.
  destruct v as [| | | | |l]; simpl; try done.
  intros Hlt. by rewrite lookup_app_l.
Qed.

Lemma truthy_not_None (h : heap) (v : value) : truthy h v = true -> v <> VNone.
Proof. by destruct v. Qed.

(** ** The initialisers *)

(** A record class called without arguments: every field has its
    default. *)
Lemma new_with_defaults (c : pyclass) (h : heap) :
  slots c = keys (defaults c) ->
  new c (fun h self => Object.__init__ h self [] []) h
  = OK (List.length h, h ++ [Instance c (alist_update [] (defaults c))]).
Proof.
  intros Hslots. unfold new, alloc, Object.__init__.
  rewrite lookup_app_r by lia. rewrite Nat.sub_diag. simpl.
  rewrite combine_nil.
  change (alist_update (defaults c) []) with (defaults c).
  replace (forallb _ _) with true.
  - simpl. f_equal. f_equal.
    rewrite insert_app_r_alt by lia. by rewrite Nat.sub_diag.
  - symmetry. apply forallb_forall. intros k Hk.
    apply orb_true_iff. left. rewrite Hslots. by apply mem_true.
Qed.

Section OrderFacts.
Context `{Env}.

Lemma NoDup_Order_defaults : NoDup (keys Order.defaults).
Proof. apply (bool_decide_unpack _). vm_compute. exact I. Qed.

Lemma order_like_slot (c : pyclass) (k : string) :
  order_like c -> In k (keys Order.defaults) ->
  (mem k (slots c) || has_dict c) = true.
Proof.
  intros (_ & Hs & _) Hin. rewrite Hs.
  apply orb_true_iff. left. by apply mem_true.
Qed.

Lemma order_like_names (c : pyclass) (ks : list string) :
  order_like c ->
  forallb (fun k => mem k (slots c) || has_dict c) ks = true
  <-> forall k, In k ks -> In k (keys Order.defaults).
Proof.
  intros (_ & Hs & Hd). rewrite forallb_forall.
  split; intros Hall k Hk; specialize (Hall k Hk).
  - rewrite Hs, Hd, orb_false_r in Hall. by apply mem_true.
  - rewrite Hs, Hd, orb_false_r. by apply mem_true.
Qed.

Lemma NoDup_base_fields (args : list value) (kwargs : alist) :
  NoDup (keys (base_fields args kwargs)).
Proof.
  unfold base_fields. do 2 apply NoDup_keys_update.
  apply NoDup_Order_defaults.
Qed.

(** A field after the base initialisation: the named argument, else the
    positional one, else the default. *)
Lemma alist_get_base_fields (k : string) (args : list value) (kwargs : alist) :
  alist_get k (base_fields args kwargs)
  = match alist_get k (rev kwargs) with
    | Some v => Some v
    | None =>
        match alist_get k (rev (combine (keys Order.defaults) args)) with
        | Some v => Some v
        | None => alist_get k Order.defaults
        end
    end.
Proof. unfold base_fields. by rewrite !alist_get_update. Qed.

Lemma base_fields_has (k : string) (args : list value) (kwargs : alist) :
  In k (keys Order.defaults) ->
  exists v, alist_get k (base_fields args kwargs) = Some v.
Proof.
  intros Hin. rewrite alist_get_base_fields.
  destruct (alist_get k (rev kwargs)); [eauto|].
  destruct (alist_get k (rev (combine _ args))); [eauto|].
  destruct (alist_get k Order.defaults) eqn:Hd; [eauto|].
  by apply alist_get_None in Hd.
Qed.

Lemma SoftDollarTier_new (h : heap) :
  new SoftDollarTier (fun h self => Object.__init__ h self [] []) h
  = OK (List.length h,
        h ++ [Instance SoftDollarTier (alist_update [] SoftDollarTier_defaults)]).
Proof. by apply new_with_defaults. Qed.

Lemma Object_init_order (h : heap) (self : loc) (c : pyclass)
    (args : list value) (kwargs : alist) :
  h !! self = Some (Instance c []) ->
  order_like c ->
  Object.__init__ h self args kwargs
  = if forallb (fun k => mem k (keys Order.defaults)) (keys kwargs)
    then OK (<[self := Instance c (base_fields args kwargs)]> h)
    else Raise AttributeError.
Proof.
  intros Hself Hc. unfold Object.__init__. rewrite Hself.
  destruct Hc as (Hd & Hs & Hdict). rewrite Hd, Hs, Hdict.
  fold (base_fields args kwargs).
  rewrite (alist_update_NoDup [] (base_fields args kwargs))
    by apply NoDup_base_fields.
  cbn [app]. unfold base_fields.
  rewrite !forallb_keys_update.
  assert (forall ks, (forall k, In k ks -> In k (keys Order.defaults)) ->
            forallb (fun k => mem k (keys Order.defaults) || false) ks = true)
    as Hsub.
  { intros ks Hks. apply forallb_forall. intros k Hk.
    rewrite orb_false_r. apply mem_true. by apply Hks. }
  rewrite (Hsub (keys Order.defaults)) by done.
  rewrite (Hsub (keys (combine _ args))) by apply keys_combine_subset.
  cbn [andb].
  assert (forall ks,
            forallb (fun k => mem k (keys Order.defaults) || false) ks
            = forallb (fun k => mem k (keys Order.defaults)) ks) as Heq.
  { induction ks as [|k ks IH]; cbn [forallb]; [done|].
    by rewrite orb_false_r, IH. }
  by rewrite Heq.
Qed.

(** The first fix-up of [Order.__init__]. *)
Lemma fix_conditions_OK (h1 h2 : heap) (self : loc) (c : pyclass)
    (a : alist) (cv0 : value) :
  h1 !! self = Some (Instance c a) ->
  order_like c ->
  (if negb (truthy h1 cv0)
   then let '(l, h) := alloc h1 (PyList []) in
        setattr h self "conditions" (VRef l)
   else OK h1) = OK h2 ->
  (truthy h1 cv0 = true /\ h2 = h1) \/
  (truthy h1 cv0 = false /\
   h2 = <[self := Instance c (alist_set "conditions" (VRef (List.length h1)) a)]>
          (h1 ++ [PyList []])).
Proof.
  intros Hself Hc Hfix. destruct (truthy h1 cv0); cbn [negb] in Hfix.
  - left. split; [done|]. symmetry. by apply OK_inj.
  - right. split; [done|]. unfold alloc in Hfix.
    rewrite (setattr_instance _ _ c a) in Hfix.
    + symmetry. by apply OK_inj.
    + rewrite lookup_app_l; [done | by eapply lookup_lt_Some].
    + apply order_like_slot; [done|]. apply mem_true. by vm_compute.
Qed.

(** The second fix-up of [Order.__init__]. *)
Lemma fix_softDollarTier_OK (h2 h3 : heap) (self : loc) (c : pyclass)
    (a : alist) (sv0 : value) :
  h2 !! self = Some (Instance c a) ->
  order_like c ->
  (if negb (truthy h2 sv0)
   then '(l, h) ← new SoftDollarTier
                    (fun h self => Object.__init__ h self [] []) h2;
        setattr h self "softDollarTier" (VRef l)
   else OK h2) = OK h3 ->
  (truthy h2 sv0 = true /\ h3 = h2) \/
  (truthy h2 sv0 = false /\
   h3 = <[self := Instance c
                    (alist_set "softDollarTier" (VRef (List.length h2)) a)]>
          (h2 ++ [Instance SoftDollarTier
                    (alist_update [] SoftDollarTier_defaults)])).
Proof.
  intros Hself Hc Hfix. destruct (truthy h2 sv0); cbn [negb] in Hfix.
  - left. split; [done|]. symmetry. by apply OK_inj.
  - right. split; [done|]. rewrite SoftDollarTier_new in Hfix.
    cbn [mbind result_bind] in Hfix.
    rewrite (setattr_instance _ _ c a) in Hfix.
    + symmetry. by apply OK_inj.
    + rewrite lookup_app_l; [done | by eapply lookup_lt_Some].
    + apply order_like_slot; [done|]. apply mem_true. by vm_compute.
Qed.
(** What a successful run of [Order.__init__] on a new instance leaves. *)
Lemma Order_init_OK (h h' : heap) (self : loc) (c : pyclass)
    (args : list value) (kwargs : alist) :
  h !! self = Some (Instance c []) ->
  order_like c ->
  Order.__init__ h self args kwargs = OK h' ->
  exists attrs cv0 sv0 cv sv,
    h' !! self = Some (Instance c attrs) /\
    (forall l, (l < List.length h)%nat -> l <> self -> h' !! l = h !! l) /\
    (forall k, k <> "conditions" -> k <> "softDollarTier" ->
       alist_get k attrs = alist_get k (base_fields args kwargs)) /\
    alist_get "conditions" (base_fields args kwargs) = Some cv0 /\
    alist_get "softDollarTier" (base_fields args kwargs) = Some sv0 /\
    alist_get "conditions" attrs = Some cv /\
    alist_get "softDollarTier" attrs = Some sv /\
    cv <> VNone /\ sv <> VNone /\
    (truthy h cv0 = true -> cv = cv0) /\
    (truthy h cv0 = false ->
       exists l, cv = VRef l /\ (List.length h <= l)%nat /\ sv <> VRef l /\
                 h' !! l = Some (PyList [])) /\
    (truthy h sv0 = true -> valid h sv0 -> sv = sv0) /\
    (truthy h sv0 = false ->
       exists l, sv = VRef l /\ (List.length h <= l)%nat /\
                 h' !! l = Some (Instance SoftDollarTier
                                   (alist_update [] SoftDollarTier_defaults))).
Proof.
  intros Hself Hc Hinit. unfold Order.__init__ in Hinit.
  apply bind_OK in Hinit as (h1 & Hbase & Hinit).
  rewrite (Object_init_order _ _ _ _ _ Hself Hc) in Hbase.
  destruct (forallb _ (keys kwargs)); [|discriminate].
  apply OK_inj in Hbase.
  pose proof (lookup_lt_Some _ _ _ Hself) as Hlt.
  set (bf := base_fields args kwargs) in *.
  assert (h1 !! self = Some (Instance c bf)) as Hself1.
  { subst h1. by apply list_lookup_insert_eq. }
  assert (List.length h1 = List.length h) as Hlen1.
  { subst h1. apply length_insert. }
  assert (forall l, l <> self -> h1 !! l = h !! l) as Hframe1.
  { intros l Hl. subst h1. by apply list_lookup_insert_ne. }
  assert (forall v, truthy h1 v = truthy h v) as Htruthy1.
  { intros v. subst h1. by eapply truthy_insert_instance. }
  clear Hbase.
  destruct (base_fields_has "conditions" args kwargs) as [cv0 Hcv0].
  { apply mem_true. by vm_compute. }
  destruct (base_fields_has "softDollarTier" args kwargs) as [sv0 Hsv0].
  { apply mem_true. by vm_compute. }
  fold bf in Hcv0, Hsv0.
  apply bind_OK in Hinit as (cv0' & Hget & Hinit).
  rewrite (getattr_instance _ _ _ _ _ Hself1), Hcv0 in Hget.
  apply OK_inj in Hget. subst cv0'.
  apply bind_OK in Hinit as (h2 & Hfix1 & Hinit).
  apply bind_OK in Hinit as (sv0' & Hget & Hinit).
  apply bind_OK in Hinit as (h3 & Hfix2 & Hinit).
  apply OK_inj in Hinit. subst h3.
  apply (fix_conditions_OK _ _ _ _ _ _ Hself1 Hc) in Hfix1
    as [[Hcv ->]|[Hcv ->]].
  - (* the conditions were given *)
    rewrite (getattr_instance _ _ _ _ _ Hself1), Hsv0 in Hget.
    apply OK_inj in Hget. subst sv0'.
    apply (fix_softDollarTier_OK _ _ _ _ _ _ Hself1 Hc) in Hfix2
      as [[Hsv ->]|[Hsv ->]].
    + exists bf, cv0, sv0, cv0, sv0.
      rewrite Htruthy1 in Hcv, Hsv.
      split_and!.
      * done.
      * intros l _ Hl. by apply Hframe1.
      * done.
      * done.
      * done.
      * done.
      * done.
      * by eapply truthy_not_None.
      * by eapply truthy_not_None.
      * done.
      * congruence.
      * done.
      * congruence.
    + exists (alist_set "softDollarTier" (VRef (List.length h1)) bf),
        cv0, sv0, cv0, (VRef (List.length h1)).
      rewrite Htruthy1 in Hcv, Hsv.
      split_and!.
      * apply list_lookup_insert_eq. rewrite length_app. lia.
      * intros l Hl Hne. rewrite list_lookup_insert_ne by done.
        rewrite lookup_app_l by lia. by apply Hframe1.
      * intros k _ Hk. by apply alist_get_set_ne.
      * done.
      * done.
      * by rewrite alist_get_set_ne.
      * apply alist_get_set_eq.
      * by eapply truthy_not_None.
      * done.
      * done.
      * congruence.
      * congruence.
      * intros _. exists (List.length h1). split_and!; [done | lia |].
        rewrite list_lookup_insert_ne by lia.
        rewrite lookup_app_r by lia. by rewrite Nat.sub_diag.
  - (* the conditions are a new list *)
    set (a2 := alist_set "conditions" (VRef (List.length h1)) bf) in *.
    set (h2 := <[self := Instance c a2]> (h1 ++ [PyList []])) in *.
    assert ((h1 ++ [PyList []]) !! self = Some (Instance c bf)) as Hself1'.
    { rewrite lookup_app_l by lia. done. }
    assert (h2 !! self = Some (Instance c a2)) as Hself2.
    { apply list_lookup_insert_eq. rewrite length_app. lia. }
    assert (List.length h2 = S (List.length h1)) as Hlen2.
    { unfold h2. rewrite length_insert, length_app. simpl. lia. }
    assert (h2 !! List.length h1 = Some (PyList [])) as Hnew.
    { unfold h2. rewrite list_lookup_insert_ne by lia.
      rewrite lookup_app_r by lia. by rewrite Nat.sub_diag. }
    assert (forall v, valid h v -> truthy h2 v = truthy h v) as Htruthy2.
    { intros v Hv. unfold h2.
      rewrite (truthy_insert_instance _ _ _ _ _ _ _ Hself1').
      rewrite truthy_alloc_valid; [by apply Htruthy1|].
      destruct v; simpl in *; try done. lia. }
    rewrite (getattr_instance _ _ _ _ _ Hself2) in Hget.
    unfold a2 in Hget. rewrite alist_get_set_ne, Hsv0 in Hget by done.
    apply OK_inj in Hget. subst sv0'.
    rewrite Htruthy1 in Hcv.
    apply (fix_softDollarTier_OK _ _ _ _ _ _ Hself2 Hc) in Hfix2
      as [[Hsv ->]|[Hsv ->]].
    + exists a2, cv0, sv0, (VRef (List.length h1)), sv0.
      split_and!.
      * done.
      * intros l Hl Hne. unfold h2. rewrite list_lookup_insert_ne by done.
        rewrite lookup_app_l by lia. by apply Hframe1.
      * intros k Hk _. by apply alist_get_set_ne.
      * done.
      * done.
      * apply alist_get_set_eq.
      * unfold a2. by rewrite alist_get_set_ne.
      * done.
      * by eapply truthy_not_None.
      * congruence.
      * intros _. exists (List.length h1). split_and!; [done | lia | | done].
        intros ->. simpl in Hsv. by rewrite Hnew in Hsv.
      * done.
      * intros Hsv'. rewrite Htruthy2 in Hsv; [congruence|].
        by eapply truthy_false_valid.
    + exists (alist_set "softDollarTier" (VRef (List.length h2)) a2),
        cv0, sv0, (VRef (List.length h1)), (VRef (List.length h2)).
      split_and!.
      * apply list_lookup_insert_eq. rewrite length_app. lia.
      * intros l Hl Hne. rewrite list_lookup_insert_ne by done.
        rewrite lookup_app_l by lia. unfold h2.
        rewrite list_lookup_insert_ne by done.
        rewrite lookup_app_l by lia. by apply Hframe1.
      * intros k Hk Hk'. rewrite alist_get_set_ne by done.
        by apply alist_get_set_ne.
      * done.
      * done.
      * rewrite alist_get_set_ne by done. apply alist_get_set_eq.
      * apply alist_get_set_eq.
      * done.
      * done.
      * congruence.
      * intros _. exists (List.length h1).
        split_and!; [done | lia | intros [= Heq]; lia |].
        rewrite list_lookup_insert_ne by lia.
        rewrite lookup_app_l by lia. done.
      * intros Hsv' Hv. rewrite Htruthy2 in Hsv by done. congruence.
      * intros _. exists (List.length h2). split_and!; [done | lia |].
        rewrite list_lookup_insert_ne by lia.
        rewrite lookup_app_r by lia. by rewrite Nat.sub_diag.
Qed.

(** The fix-ups never fail: the run succeeds when the base initialiser
    does, that is when every named argument names a field. *)
Lemma Order_init_succeeds (h : heap) (self : loc) (c : pyclass)
    (args : list value) (kwargs : alist) :
  h !! self = Some (Instance c []) ->
  order_like c ->
  succeeds (Order.__init__ h self args kwargs) <->
  forall k, In k (keys kwargs) -> In k (keys Order.defaults).
Proof.
  intros Hself Hc.
  pose proof (lookup_lt_Some _ _ _ Hself) as Hlt.
  pose proof (Object_init_order h self c args kwargs Hself Hc) as Hbase.
  split.
  - intros [h' Hinit]. unfold Order.__init__ in Hinit.
    apply bind_OK in Hinit as (h1 & Hbase' & _).
    rewrite Hbase in Hbase'.
    destruct (forallb _ (keys kwargs)) eqn:Hn; [|discriminate].
    intros k Hk. apply mem_true. by eapply forallb_forall in Hn.
  - intros Hall.
    assert (forallb (fun k => mem k (keys Order.defaults)) (keys kwargs) = true)
      as Hn.
    { apply forallb_forall. intros k Hk. apply mem_true. by apply Hall. }
    rewrite Hn in Hbase. unfold Order.__init__. rewrite Hbase.
    cbn [mbind result_bind].
    set (bf := base_fields args kwargs).
    set (h1 := <[self := Instance c bf]> h).
    assert (h1 !! self = Some (Instance c bf)) as Hself1.
    { by apply list_lookup_insert_eq. }
    destruct (base_fields_has "conditions" args kwargs) as [cv0 Hcv0].
    { apply mem_true. by vm_compute. }
    destruct (base_fields_has "softDollarTier" args kwargs) as [sv0 Hsv0].
    { apply mem_true. by vm_compute. }
    fold bf in Hcv0, Hsv0.
    rewrite (getattr_instance _ _ _ _ _ Hself1), Hcv0.
    cbn [of_option mbind result_bind].
    assert (exists h2 a2,
              (if negb (truthy h1 cv0)
               then let '(l, h) := alloc h1 (PyList []) in
                    setattr h self "conditions" (VRef l)
               else OK h1) = OK h2 /\
              h2 !! self = Some (Instance c a2) /\
              alist_get "softDollarTier" a2 = Some sv0)
      as (h2 & a2 & -> & Hself2 & Hsv2).
    { destruct (truthy h1 cv0); cbn [negb].
      - by exists h1, bf.
      - unfold alloc. eexists _, _. split_and!.
        + apply (setattr_instance _ _ c bf).
          * rewrite lookup_app_l; [done | by eapply lookup_lt_Some].
          * apply order_like_slot; [done|]. apply mem_true. by vm_compute.
        + apply list_lookup_insert_eq. rewrite length_app.
          apply lookup_lt_Some in Hself1. lia.
        + by rewrite alist_get_set_ne. }
    cbn [mbind result_bind].
    rewrite (getattr_instance _ _ _ _ _ Hself2), Hsv2.
    cbn [of_option mbind result_bind].
    destruct (truthy h2 sv0); cbn [negb mbind result_bind].
    + by eexists.
    + rewrite SoftDollarTier_new. cbn [mbind result_bind].
      rewrite (setattr_instance _ _ c a2).
      * by eexists.
      * rewrite lookup_app_l; [done | by eapply lookup_lt_Some].
      * apply order_like_slot; [done|]. apply mem_true. by vm_compute.
Qed.

End OrderFacts.

(** ** Constructors *)

Lemma alist_get_In (k : string) (v : value) (d : alist) :
  NoDup (keys d) -> In (k, v) d -> alist_get k d = Some v.
Proof.
  induction d as [|[k0 v0] d IH]; simpl; [done|].
  intros Hd [Heq|Hin].
  - injection Heq as -> ->. by rewrite String.eqb_refl.
  - apply NoDup_cons in Hd as [Hk0 Hd].
    destruct (String.eqb_spec k k0) as [->|Hne]; [|by apply IH].
    destruct Hk0. apply list_elem_of_In.
    change k0 with (fst (k0, v)). by apply in_map.
Qed.

Lemma call_kwargs_OK (explicit kwargs kw : alist) :
  call_kwargs explicit kwargs = OK kw <->
  (forall k, In k (keys kwargs) -> ~ In k (keys explicit)) /\
  kw = explicit ++ kwargs.
Proof.
  unfold call_kwargs.
  destruct (existsb _ (keys kwargs)) eqn:Hex.
  - split; [discriminate|]. intros [Hall _].
    apply existsb_exists in Hex as (k & Hk & Hm).
    apply mem_true in Hm. by destruct (Hall k Hk).
  - split.
    + intros Heq. apply OK_inj in Heq. split; [|done].
      intros k Hk Hin.
      assert (existsb (fun k => mem k (keys explicit)) (keys kwargs) = true)
        as Hex'; [|congruence].
      apply existsb_exists. exists k. split; [done | by apply mem_true].
    + by intros [_ ->].
Qed.

Lemma new_OK (c : pyclass) (init : heap -> loc -> result heap) (h h' : heap)
    (self : loc) :
  new c init h = OK (self, h') <->
  self = List.length h /\ init (h ++ [Instance c []]) (List.length h) = OK h'.
Proof.
  unfold new, alloc.
  destruct (init _ _) as [h1|e]; cbn [mbind result_bind].
  - split; [intros Heq; apply OK_inj in Heq; by injection Heq as <- <- |].
    intros [-> Heq]. apply OK_inj in Heq. by subst.
  - split; [discriminate | intros [_ ?]; discriminate].
Qed.

Section Constructors.
Context `{Env}.

(** A typed constructor that succeeds has run [Order.__init__] with its
    own keywords followed by the overrides. *)
Lemma keyword_init_new (c : pyclass) (h h' : heap) (self : loc)
    (fixed kwargs : alist) :
  new c
    (fun h self => kw ← call_kwargs fixed kwargs; Order.__init__ h self [] kw)
    h = OK (self, h') ->
  new c (fun h self => Order.__init__ h self [] (fixed ++ kwargs)) h
  = OK (self, h').
Proof.
  intros Hnew. apply new_OK in Hnew as [-> Hinit]. apply new_OK.
  split; [done|].
  apply bind_OK in Hinit as (kw & Hkw & Hinit).
  by apply call_kwargs_OK in Hkw as [_ ->].
Qed.

Lemma order_classes_like (c : pyclass) : In c order_classes -> order_like c.
Proof.
  intros Hin. repeat destruct Hin as [<-|Hin]; try done.
Qed.

(** The typed constructors: a keyword call of [Order.__init__] with the
    fields [fixed] and the overrides behind them. *)
Lemma keyword_init_constructs (c : pyclass) (h : heap)
    (fixed kwargs : alist) :
  order_like c ->
  NoDup (keys fixed) ->
  (forall k, In k (keys fixed) ->
     In k (keys Order.defaults) /\ k <> "conditions" /\ k <> "softDollarTier") ->
  constructs c
    (fun h self => kw ← call_kwargs fixed kwargs; Order.__init__ h self [] kw)
    h fixed kwargs.
Proof.
  intros Hc Hnd Hfixed.
  assert ((h ++ [Instance c []]) !! List.length h = Some (Instance c []))
    as Hself.
  { rewrite lookup_app_r by lia. by rewrite Nat.sub_diag. }
  split.
  - split.
    + intros [[self h'] Hnew]. apply new_OK in Hnew as [-> Hinit].
      apply bind_OK in Hinit as (kw & Hkw & Hinit).
      apply call_kwargs_OK in Hkw as [Hcoll ->].
      assert (succeeds (Order.__init__ (h ++ [Instance c []]) (List.length h)
                          [] (fixed ++ kwargs))) as Hs by (by eexists).
      pose proof (proj1 (Order_init_succeeds _ _ _ [] (fixed ++ kwargs)
                           Hself Hc) Hs) as Hs'.
      intros k Hk. split; [by apply Hcoll|].
      apply Hs'. unfold keys. rewrite map_app. apply in_or_app. by right.
    + intros Hall.
      assert (succeeds (Order.__init__ (h ++ [Instance c []]) (List.length h)
                          [] (fixed ++ kwargs))) as [h' Hinit].
      { apply (proj2 (Order_init_succeeds _ _ _ [] (fixed ++ kwargs)
                        Hself Hc)).
        intros k Hk. unfold keys in Hk. rewrite map_app in Hk.
        apply in_app_or in Hk as [Hk|Hk]; [by apply Hfixed | by apply Hall]. }
      exists (List.length h, h'). apply new_OK. split; [done|].
      replace (call_kwargs fixed kwargs) with (OK (fixed ++ kwargs)); [done|].
      symmetry. apply call_kwargs_OK. split; [|done].
      intros k Hk. by apply Hall.
  - intros self h' Hnew. apply new_OK in Hnew as [-> Hinit].
    apply bind_OK in Hinit as (kw & Hkw & Hinit).
    apply call_kwargs_OK in Hkw as [Hcoll ->].
    apply (Order_init_OK _ _ _ _ _ _ Hself Hc) in Hinit
      as (attrs & cv0 & sv0 & cv & sv & Hself' & _ & Hother & _).
    assert (forall k, k <> "conditions" -> k <> "softDollarTier" ->
              getattr h' (VRef (List.length h)) k
              = of_option AttributeError
                  (match alist_get k (rev kwargs) with
                   | Some v => Some v
                   | None =>
                       match alist_get k fixed with
                       | Some v => Some v
                       | None => alist_get k Order.defaults
                       end
                   end)) as Hget.
    { intros k Hk Hk'. rewrite (getattr_instance _ _ _ _ _ Hself').
      rewrite Hother, alist_get_base_fields by done.
      rewrite combine_nil, rev_app_distr, alist_get_app.
      rewrite (alist_get_rev k fixed) by done. cbn [rev alist_get].
      destruct (alist_get k (rev kwargs)); [done|].
      by destruct (alist_get k fixed). }
    split_and!.
    + done.
    + by eexists.
    + intros k v Hin.
      assert (In k (keys fixed)) as Hk.
      { change k with (fst (k, v)). by apply in_map. }
      destruct (Hfixed k Hk) as (_ & Hk1 & Hk2).
      rewrite Hget by done.
      replace (alist_get k (rev kwargs)) with (@None value).
      * by rewrite (alist_get_In k v fixed).
      * symmetry. apply alist_get_rev_None. intros Hk'. by apply (Hcoll k).
    + intros k v Hv Hk1 Hk2. by rewrite Hget, Hv.
    + intros k v Hv Hf Hk Hk1 Hk2. rewrite Hget by done.
      apply alist_get_rev_None in Hk. apply alist_get_None in Hf.
      by rewrite Hk, Hf, Hv.
Qed.

End Constructors.

(** ** Orders: the claims *)

Section OrderClaims.
Context `{Env}.

Lemma fixed_fields_ok (fixed : alist) :
  forallb
    (fun k => mem k (keys Order.defaults)
              && negb (String.eqb k "conditions")
              && negb (String.eqb k "softDollarTier"))
    (keys fixed) = true ->
  forall k, In k (keys fixed) ->
    In k (keys Order.defaults) /\ k <> "conditions" /\ k <> "softDollarTier".
Proof.
  intros Hall k Hk. eapply forallb_forall in Hall; [|done].
  apply andb_true_iff in Hall as [Hall Hs].
  apply andb_true_iff in Hall as [Hm Hc].
  apply mem_true in Hm. apply negb_true_iff in Hc, Hs.
  split_and!; [done | |]; intros ->; by rewrite String.eqb_refl in *.
Qed.

Lemma LimitOrder_constructs (h : heap)
    (action totalQuantity lmtPrice : value) (overrides : alist) :
  constructs LimitOrder.cls
    (fun h self =>
       LimitOrder.__init__ h self action totalQuantity lmtPrice overrides)
    h
    [ ("orderType", VStr "LMT"); ("action", action);
      ("totalQuantity", totalQuantity); ("lmtPrice", lmtPrice) ]
    overrides.
Proof.
  apply keyword_init_constructs;
    first [ done
          | apply (bool_decide_unpack _); by vm_compute
          | apply fixed_fields_ok; by vm_compute ].
Qed.

Lemma MarketOrder_constructs (h : heap)
    (action totalQuantity : value) (overrides : alist) :
  constructs MarketOrder.cls
    (fun h self => MarketOrder.__init__ h self action totalQuantity overrides)
    h
    [ ("orderType", VStr "MKT"); ("action", action);
      ("totalQuantity", totalQuantity) ]
    overrides.
Proof.
  apply keyword_init_constructs;
    first [ done
          | apply (bool_decide_unpack _); by vm_compute
          | apply fixed_fields_ok; by vm_compute ].
Qed.

Lemma StopOrder_constructs (h : heap)
    (action totalQuantity stopPrice : value) (overrides : alist) :
  constructs StopOrder.cls
    (fun h self =>
       StopOrder.__init__ h self action totalQuantity stopPrice overrides)
    h
    [ ("orderType", VStr "STP"); ("action", action);
      ("totalQuantity", totalQuantity); ("auxPrice", stopPrice) ]
    overrides.
Proof.
  apply keyword_init_constructs;
    first [ done
          | apply (bool_decide_unpack _); by vm_compute
          | apply fixed_fields_ok; by vm_compute ].
Qed.

Lemma StopLimitOrder_constructs (h : heap)
    (action totalQuantity lmtPrice stopPrice : value) (overrides : alist) :
  constructs StopLimitOrder.cls
    (fun h self =>
       StopLimitOrder.__init__ h self action totalQuantity lmtPrice stopPrice
         overrides)
    h
    [ ("orderType", VStr "STP LMT"); ("action", action);
      ("totalQuantity", totalQuantity); ("lmtPrice", lmtPrice);
      ("auxPrice", stopPrice) ]
    overrides.
Proof.
  apply keyword_init_constructs;
    first [ done
          | apply (bool_decide_unpack _); by vm_compute
          | apply fixed_fields_ok; by vm_compute ].
Qed.

(** C6. LimitOrder, MarketOrder, StopOrder and StopLimitOrder construct
    an order of their class with orderType "LMT", "MKT", "STP" and
    "STP LMT", the given action and totalQuantity, and the given prices in
    lmtPrice and auxPrice; the overrides are passed on in the keyword call
    of [Order.__init__], which accepts them exactly when they name fields
    of Order other than the ones the constructor passes itself, and the
    order holds them. *)
Theorem typed_constructors (h : heap)
    (action totalQuantity lmtPrice stopPrice : value) (overrides : alist) :
  constructs LimitOrder.cls
    (fun h self =>
       LimitOrder.__init__ h self action totalQuantity lmtPrice overrides)
    h
    [ ("orderType", VStr "LMT"); ("action", action);
      ("totalQuantity", totalQuantity); ("lmtPrice", lmtPrice) ]
    overrides /\
  constructs MarketOrder.cls
    (fun h self => MarketOrder.__init__ h self action totalQuantity overrides)
    h
    [ ("orderType", VStr "MKT"); ("action", action);
      ("totalQuantity", totalQuantity) ]
    overrides /\
  constructs StopOrder.cls
    (fun h self =>
       StopOrder.__init__ h self action totalQuantity stopPrice overrides)
    h
    [ ("orderType", VStr "STP"); ("action", action);
      ("totalQuantity", totalQuantity); ("auxPrice", stopPrice) ]
    overrides /\
  constructs StopLimitOrder.cls
    (fun h self =>
       StopLimitOrder.__init__ h self action totalQuantity lmtPrice stopPrice
         overrides)
    h
    [ ("orderType", VStr "STP LMT"); ("action", action);
      ("totalQuantity", totalQuantity); ("lmtPrice", lmtPrice);
      ("auxPrice", stopPrice) ]
    overrides.
Proof.
  split_and!.
  - apply LimitOrder_constructs.
  - apply MarketOrder_constructs.
  - apply StopOrder_constructs.
  - apply StopLimitOrder_constructs.
Qed.

(** C5. An order of any of the order classes, constructed by
    [Order.__init__] from any positional and named arguments, has
    [conditions] and [softDollarTier] different from None.  Where the
    value the base initialisation left in the field (the argument given
    for it, or the default None) is not true, the field holds an object
    that was not in the store before the call: an empty list for
    [conditions], an instance of SoftDollarTier with the declared defaults
    for [softDollarTier], the two being different objects; a true value
    that was given stays. *)
Theorem Order_fields_never_None (c : pyclass) (h h' : heap) (self : loc)
    (args : list value) (kwargs : alist) :
  In c order_classes ->
  new c (fun h self => Order.__init__ h self args kwargs) h = OK (self, h') ->
  exists conditions softDollarTier,
    getattr h' (VRef self) "conditions" = OK conditions /\
    getattr h' (VRef self) "softDollarTier" = OK softDollarTier /\
    conditions <> VNone /\
    softDollarTier <> VNone /\
    (forall v,
       alist_get "conditions" (base_fields args kwargs) = Some v ->
       if truthy h v then conditions = v
       else exists l,
              conditions = VRef l /\ (List.length h < l)%nat /\
              softDollarTier <> VRef l /\
              h' !! l = Some (PyList [])) /\
    (forall v,
       alist_get "softDollarTier" (base_fields args kwargs) = Some v ->
       if truthy h v then valid h v -> softDollarTier = v
       else exists l,
              softDollarTier = VRef l /\ (List.length h < l)%nat /\
              h' !! l = Some (Instance SoftDollarTier
                                (alist_update [] SoftDollarTier_defaults))).
Proof.
  intros Hc Hnew. apply order_classes_like in Hc.
  apply new_OK in Hnew as [-> Hinit].
  assert ((h ++ [Instance c []]) !! List.length h = Some (Instance c []))
    as Hself.
  { rewrite lookup_app_r by lia. by rewrite Nat.sub_diag. }
  apply (Order_init_OK _ _ _ _ _ _ Hself Hc) in Hinit
    as (attrs & cv0 & sv0 & cv & sv & Hself' & _ & _ & Hcv0 & Hsv0 & Hcv & Hsv
        & Hcn & Hsn & Hct & Hcf & Hst & Hsf).
  rewrite !truthy_alloc_instance in *.
  exists cv, sv. split_and!.
  - by rewrite (getattr_instance _ _ _ _ _ Hself'), Hcv.
  - by rewrite (getattr_instance _ _ _ _ _ Hself'), Hsv.
  - done.
  - done.
  - intros v Hv. rewrite Hcv0 in Hv. injection Hv as <-.
    destruct (truthy h cv0); [by apply Hct|].
    destruct Hcf as (l & -> & Hl & Hne & Hl'); [done|].
    exists l. rewrite length_app in Hl. simpl in Hl.
    split_and!; [done | lia | done | done].
  - intros v Hv. rewrite Hsv0 in Hv. injection Hv as <-.
    destruct (truthy h sv0).
    + intros Hvalid. apply Hst; [done|].
      destruct sv0; simpl in *; try done. rewrite length_app. lia.
    + destruct Hsf as (l & -> & Hl & Hl'); [done|].
      exists l. rewrite length_app in Hl. simpl in Hl.
      split_and!; [done | lia | done].
Qed.

(** C10. Without overrides, a MarketOrder has the sentinel UNSET_DOUBLE in
    both lmtPrice and auxPrice, and a StopOrder has it in lmtPrice and the
    stop price in auxPrice; where the sentinel is not 0.0, as the spec's
    glossary has it, neither sentinel field reads 0.0. *)
Theorem unset_prices_kept (h : heap) (action totalQuantity stopPrice : value) :
  (exists self h',
     new MarketOrder.cls
       (fun h self => MarketOrder.__init__ h self action totalQuantity [])
       h = OK (self, h') /\
     getattr h' (VRef self) "lmtPrice" = OK (VFloat UNSET_DOUBLE) /\
     getattr h' (VRef self) "auxPrice" = OK (VFloat UNSET_DOUBLE) /\
     (UNSET_DOUBLE <> 0%float ->
      getattr h' (VRef self) "lmtPrice" <> OK (VFloat 0) /\
      getattr h' (VRef self) "auxPrice" <> OK (VFloat 0))) /\
  (exists self h',
     new StopOrder.cls
       (fun h self =>
          StopOrder.__init__ h self action totalQuantity stopPrice [])
       h = OK (self, h') /\
     getattr h' (VRef self) "lmtPrice" = OK (VFloat UNSET_DOUBLE) /\
     getattr h' (VRef self) "auxPrice" = OK stopPrice /\
     (UNSET_DOUBLE <> 0%float ->
      getattr h' (VRef self) "lmtPrice" <> OK (VFloat 0))).
Proof.
  destruct (MarketOrder_constructs h action totalQuantity []) as [Hms Hm].
  destruct (StopOrder_constructs h action totalQuantity stopPrice [])
    as [Hss Hs].
  split.
  - destruct Hms as [_ [[self h'] Hnew]]; [by intros k []|].
    destruct (Hm self h' Hnew) as (_ & _ & _ & _ & Hdef).
    assert (getattr h' (VRef self) "lmtPrice" = OK (VFloat UNSET_DOUBLE))
      as Hlmt.
    { apply Hdef; [reflexivity | | by intros [] | done | done].
      cbn [keys map fst]. intros Hin.
      repeat destruct Hin as [Heq|Hin]; done. }
    assert (getattr h' (VRef self) "auxPrice" = OK (VFloat UNSET_DOUBLE))
      as Haux.
    { apply Hdef; [reflexivity | | by intros [] | done | done].
      cbn [keys map fst]. intros Hin.
      repeat destruct Hin as [Heq|Hin]; done. }
    exists self, h'. split_and!; try done.
    intros Hne. rewrite Hlmt, Haux.
    split; intros [= Heq]; by apply Hne.
  - destruct Hss as [_ [[self h'] Hnew]]; [by intros k []|].
    destruct (Hs self h' Hnew) as (_ & _ & Hfix & _ & Hdef).
    assert (getattr h' (VRef self) "lmtPrice" = OK (VFloat UNSET_DOUBLE))
      as Hget.
    { apply Hdef; [reflexivity | | by intros [] | done | done].
      cbn [keys map fst]. intros Hin.
      repeat destruct Hin as [Heq|Hin]; done. }
    exists self, h'. split_and!.
    + done.
    + done.
    + apply Hfix. simpl. tauto.
    + intros Hne. rewrite Hget. intros [= Heq]. by apply Hne.
Qed.

End OrderClaims.

Lemma typed_constructors_witness :
  exists self h',
    new (@LimitOrder.cls example_env)
      (fun h self =>
         @LimitOrder.__init__ example_env h self
           (VStr "BUY") (VInt 100) (VFloat 10.5) [])
      [] = OK (self, h') /\
    getattr h' (VRef self) "orderType" = OK (VStr "LMT") /\
    getattr h' (VRef self) "action" = OK (VStr "BUY") /\
    getattr h' (VRef self) "totalQuantity" = OK (VInt 100) /\
    getattr h' (VRef self) "lmtPrice" = OK (VFloat 10.5).
Proof.
  destruct (@typed_constructors example_env []
              (VStr "BUY") (VInt 100) (VFloat 10.5) VNone [])
    as [[Hs Hf] _].
  destruct Hs as [_ [[self h'] Hnew]]; [by intros k []|].
  destruct (Hf self h' Hnew) as (_ & _ & Hfix & _).
  exists self, h'. split_and!; [done | apply Hfix; simpl; tauto ..].
Defined.

Lemma Order_fields_never_None_witness :
  exists h' l,
    new (@Order.cls example_env)
      (fun h self => @Order.__init__ example_env h self [] []) []
    = OK (0%nat, h') /\
    getattr h' (VRef 0) "conditions" = OK (VRef l) /\
    h' !! l = Some (PyList []).
Proof.
  eexists _. 
  assert (new (@Order.cls example_env)
            (fun h self => @Order.__init__ example_env h self [] []) []
          = OK (0%nat, _)) as Hnew by (vm_compute; reflexivity).
  destruct (@Order_fields_never_None example_env _ [] _ 0%nat [] []
              (or_introl eq_refl) Hnew)
    as (cv & sv & Hc & _ & _ & _ & Hcf & _).
  destruct (Hcf VNone eq_refl) as (l & -> & _ & _ & Hl).
  exists l. split_and!; [exact Hnew | exact Hc | exact Hl].
Defined.

Lemma unset_prices_kept_witness :
  exists self h',
    new (@MarketOrder.cls example_env)
      (fun h self =>
         @MarketOrder.__init__ example_env h self (VStr "SELL") (VInt 10) [])
      [] = OK (self, h') /\
    getattr h' (VRef self) "lmtPrice" = OK (VFloat 0x1.fffffffffffffp+1023) /\
    getattr h' (VRef self) "lmtPrice" <> OK (VFloat 0).
Proof.
  destruct (@unset_prices_kept example_env [] (VStr "SELL") (VInt 10) VNone)
    as [(self & h' & Hnew & Hlmt & _ & Hne) _].
  exists self, h'. split_and!; [exact Hnew | exact Hlmt |].
  apply Hne. intros Heq.
  apply (f_equal (fun x => PrimFloat.eqb x 0)) in Heq.
  vm_compute in Heq. discriminate Heq.
Defined.

(** ** Order conditions: the claims *)

(** C2. [createClass] is a lookup by the discriminant alone: 1, 3, 4, 5, 6
    and 7 give the price, time, margin, execution, volume and
    percent-change condition classes, and every other discriminant, 2
    among them, raises KeyError. *)
Theorem createClass_lookup :
  OrderCondition.createClass 1 = OK PriceCondition.cls /\
  OrderCondition.createClass 3 = OK TimeCondition.cls /\
  OrderCondition.createClass 4 = OK MarginCondition.cls /\
  OrderCondition.createClass 5 = OK ExecutionCondition.cls /\
  OrderCondition.createClass 6 = OK VolumeCondition.cls /\
  OrderCondition.createClass 7 = OK PercentChangeCondition.cls /\
  OrderCondition.createClass 2 = Raise KeyError /\
  forall d, OrderCondition.createClass d = Raise KeyError
            <-> ~ In d [1; 3; 4; 5; 6; 7].
Proof.
  split_and!; try reflexivity.
  intros d. unfold OrderCondition.createClass, OrderCondition.subscript.
  repeat match goal with
         | |- context [d =? ?n] => destruct (Z.eqb_spec d n) as [->|?]
         end;
    try (split; [discriminate | intros Hn; destruct Hn; simpl; tauto]).
  split; [|done]. intros _ Hin. simpl in Hin. intuition congruence.
Qed.

(** C9. The class [createClass] gives for a discriminant declares that
    discriminant as its default condType, and every variant, each of them
    the class of some discriminant, declares the default conjunction "a". *)
Theorem variant_defaults :
  (forall d c, OrderCondition.createClass d = OK c ->
     alist_get "condType" (defaults c) = Some (VInt d)) /\
  (forall c, In c OrderCondition.variants ->
     alist_get "conjunction" (defaults c) = Some (VStr "a") /\
     exists d, OrderCondition.createClass d = OK c).
Proof.
  split.
  - intros d c. unfold OrderCondition.createClass, OrderCondition.subscript.
    repeat match goal with
           | |- context [d =? ?n] => destruct (Z.eqb_spec d n) as [->|?]
           end; try discriminate; by intros [= <-].
  - intros c Hc. unfold OrderCondition.variants in Hc. simpl in Hc.
    destruct Hc as [<-|[<-|[<-|[<-|[<-|[<-|[]]]]]]]; (split; [reflexivity|]).
    + by exists 1.
    + by exists 3.
    + by exists 4.
    + by exists 5.
    + by exists 6.
    + by exists 7.
Qed.

Lemma variant_defaults_witness :
  alist_get "condType" (defaults PriceCondition.cls) = Some (VInt 1) /\
  alist_get "conjunction" (defaults PercentChangeCondition.cls)
  = Some (VStr "a").
Proof.
  split.
  - exact (proj1 variant_defaults 1 PriceCondition.cls eq_refl).
  - apply (proj2 variant_defaults PercentChangeCondition.cls).
    simpl. tauto.
Defined.

(** The same on an instance: a variant constructed without arguments
    reads the discriminant of its class and the conjunction "a". *)
Lemma createClass_instance (d : Z) (c : pyclass) (h : heap) :
  OrderCondition.createClass d = OK c ->
  exists self h',
    new c (fun h self => Object.__init__ h self [] []) h = OK (self, h') /\
    getattr h' (VRef self) "condType" = OK (VInt d) /\
    getattr h' (VRef self) "conjunction" = OK (VStr "a").
Proof.
  intros Hc.
  assert (slots c = keys (defaults c) /\
          alist_get "condType" (alist_update [] (defaults c)) = Some (VInt d) /\
          alist_get "conjunction" (alist_update [] (defaults c))
          = Some (VStr "a")) as (Hslots & Hcond & Hconj).
  { revert Hc. unfold OrderCondition.createClass, OrderCondition.subscript.
    repeat match goal with
           | |- context [d =? ?n] => destruct (Z.eqb_spec d n) as [->|?]
           end; try discriminate; by intros [= <-]. }
  exists (List.length h), (h ++ [Instance c (alist_update [] (defaults c))]).
  assert ((h ++ [Instance c (alist_update [] (defaults c))]) !! List.length h
          = Some (Instance c (alist_update [] (defaults c)))) as Hself.
  { rewrite lookup_app_r by lia. by rewrite Nat.sub_diag. }
  split_and!.
  - by apply new_with_defaults.
  - by rewrite (getattr_instance _ _ _ _ _ Hself), Hcond.
  - by rewrite (getattr_instance _ _ _ _ _ Hself), Hconj.
Qed.

(** C8. On an instance of a condition variant, [And] and [Or] succeed,
    return the reference they were called on, and leave the store as it
    was except for the conjunction of that instance, which is "a" after
    [And] and "o" after [Or]. *)
Theorem And_Or_in_place (h : heap) (self : loc) (c : pyclass) (attrs : alist) :
  h !! self = Some (Instance c attrs) ->
  In c OrderCondition.variants ->
  (exists h', OrderCondition.And h self = OK (h', VRef self) /\
              conjunction_set h h' self "a") /\
  (exists h', OrderCondition.Or h self = OK (h', VRef self) /\
              conjunction_set h h' self "o").
Proof.
  intros Hself Hc.
  assert ((mem "conjunction" (slots c) || has_dict c) = true) as Hslot.
  { simpl in Hc.
    destruct Hc as [<-|[<-|[<-|[<-|[<-|[<-|[]]]]]]]; reflexivity. }
  pose proof (lookup_lt_Some _ _ _ Hself) as Hlt.
  assert (forall s,
            conjunction_set h
              (<[self := Instance c (alist_set "conjunction" (VStr s) attrs)]> h)
              self s) as Hset.
  { intros s. unfold conjunction_set. split_and!.
    - erewrite getattr_instance by (by apply list_lookup_insert_eq).
      by rewrite alist_get_set_eq.
    - intros name Hname.
      erewrite getattr_instance by (by apply list_lookup_insert_eq).
      rewrite (getattr_instance _ _ _ _ _ Hself).
      by rewrite alist_get_set_ne.
    - intros c' attrs' Hself'. rewrite Hself in Hself'.
      injection Hself' as <- <-. eexists. by apply list_lookup_insert_eq.
    - intros l Hl. by apply list_lookup_insert_ne.
    - apply length_insert. }
  unfold OrderCondition.And, OrderCondition.Or.
  rewrite !(setattr_instance _ _ _ _ _ _ Hself Hslot).
  split; eexists; (split; [reflexivity | apply Hset]).
Qed.

Lemma And_Or_in_place_witness :
  exists h',
    OrderCondition.Or [Instance PriceCondition.cls PriceCondition.defaults] 0
    = OK (h', VRef 0) /\
    getattr h' (VRef 0) "conjunction" = OK (VStr "o") /\
    getattr h' (VRef 0) "price" = OK (VFloat 0).
Proof.
  destruct (And_Or_in_place
              [Instance PriceCondition.cls PriceCondition.defaults] 0
              PriceCondition.cls PriceCondition.defaults eq_refl
              (or_introl eq_refl))
    as [_ (h' & HOr & Hconj & Hframe & _)].
  exists h'. split_and!; [exact HOr | exact Hconj |].
  rewrite Hframe by done. reflexivity.
Defined.

(** The base class itself has no conjunction slot. *)
Example And_on_the_base_class :
  OrderCondition.And [Instance OrderCondition.cls []] 0 = Raise AttributeError.
Proof. reflexivity. Qed.

(** ** Trades: the claims *)

(** C3. With a string in [orderStatus.status], [isActive] is true exactly
    for PendingSubmit, ApiPending, PreSubmitted and Submitted, and
    [isDone] exactly for Filled, Cancelled and ApiCancelled; both are
    false for PendingCancel and for Inactive. *)
Theorem isActive_isDone (h : heap) (self : loc) (orderStatus : value)
    (status : string) :
  getattr h (VRef self) "orderStatus" = OK orderStatus ->
  getattr h orderStatus "status" = OK (VStr status) ->
  (exists b, Trade.isActive h self = OK b /\
     (b = true <->
        In status ["PendingSubmit"; "ApiPending"; "PreSubmitted"; "Submitted"]))
  /\
  (exists b, Trade.isDone h self = OK b /\
     (b = true <-> In status ["Filled"; "Cancelled"; "ApiCancelled"])) /\
  (In status ["PendingCancel"; "Inactive"] ->
     Trade.isActive h self = OK false /\ Trade.isDone h self = OK false).
Proof.
  intros Hos Hst. unfold Trade.isActive, Trade.isDone.
  rewrite Hos. cbn [mbind result_bind]. rewrite Hst.
  cbn [mbind result_bind contains].
  split_and!.
  - eexists. split; [reflexivity|].
    rewrite bool_decide_eq_true. unfold OrderStatus.ActiveStates.
    rewrite !elem_of_union, !elem_of_singleton. simpl. 
    split; [intros [[[?|?]|?]|?]; subst; tauto | intros [?|[?|[?|[?|[]]]]]; subst; tauto].
  - eexists. split; [reflexivity|].
    rewrite bool_decide_eq_true. unfold OrderStatus.DoneStates.
    rewrite !elem_of_union, !elem_of_singleton. simpl.
    split; [intros [[?|?]|?]; subst; tauto | intros [?|[?|[?|[]]]]; subst; tauto].
  - intros [<-|[<-|[]]]; split; reflexivity.
Qed.

Lemma isActive_isDone_witness :
  Trade.isActive example_store 16 = OK true /\
  Trade.isDone example_store 16 = OK false.
Proof.
  destruct (isActive_isDone example_store 16 (VRef 15) "Submitted"
              eq_refl eq_refl)
    as ((b & Hb & Hactive) & (b' & Hb' & Hdone) & _).
  split.
  - rewrite Hb. f_equal. apply Hactive. simpl. tauto.
  - rewrite Hb'. f_equal. destruct b'; [|done].
    destruct (proj1 Hdone eq_refl) as [Heq|[Heq|[Heq|[]]]]; discriminate Heq.
Defined.

(** The generator of [sum] and the list it runs through. *)
Lemma sum_generator_map (f : value -> result value) (g : fill_view -> value)
    (acc : value) (items : list value) (views : list fill_view) :
  Forall2 (fun x v => f x = OK (g v)) items views ->
  sum_generator f acc items = sum_from acc (map g views).
Proof.
  intros Hall. revert acc.
  induction Hall as [|x v items views Hx _ IH]; intros acc; simpl; [done|].
  rewrite Hx. cbn [mbind result_bind].
  destruct (py_add acc (g v)) as [acc'|e]; cbn [mbind result_bind]; [|done].
  apply IH.
Qed.

Lemma comprehension_if_filter (p : value -> result bool)
    (q : fill_view -> bool) (R : value -> fill_view -> Prop)
    (items : list value) (views : list fill_view) :
  Forall2 (fun x v => p x = OK (q v) /\ R x v) items views ->
  exists kept,
    comprehension_if p items = OK kept /\
    Forall2 R kept (List.filter q views).
Proof.
  induction 1 as [|x v items views [Hx HR] _ (kept & IH & Hkept)]; simpl.
  - by exists [].
  - rewrite Hx, IH. cbn [mbind result_bind].
    destruct (q v); eexists; split; try reflexivity; [by constructor | done].
Qed.

Lemma sum_from_ints (acc : Z) (ns : list Z) :
  sum_from (VInt acc) (map VInt ns) = OK (VInt (acc + foldr Z.add 0 ns)).
Proof.
  revert acc. induction ns as [|n ns IH]; intros acc; simpl.
  - by rewrite Z.add_0_r.
  - rewrite IH. by rewrite Z.add_assoc.
Qed.

(** The fills that count, case by case. *)
Lemma counted_fills_BAG (fills : list fill_view) :
  counted_fills (VStr "BAG") fills
  = List.filter (fun v => eq_str (fill_secType v) "BAG") fills.
Proof. reflexivity. Qed.

Lemma counted_fills_other (secType : string) (fills : list fill_view) :
  secType <> "BAG" -> counted_fills (VStr secType) fills = fills.
Proof.
  intros Hne. unfold counted_fills, eq_str.
  by destruct (String.eqb_spec secType "BAG").
Qed.

(** [filled] against the fills that count. *)
Lemma filled_counted (h : heap) (self : loc) (secType : value)
    (fills : list fill_view) :
  trade_at h self secType fills ->
  Trade.filled h self
  = py_sum (map fill_shares (counted_fills secType fills)).
Proof.
  intros (fills_ref & items & contract & Hfills & Hitems & Hall & Hc & Hst).
  unfold Trade.filled, counted_fills, py_sum.
    rewrite Hfills. cbn [mbind result_bind].
    rewrite Hc. cbn [mbind result_bind].
    rewrite Hst. cbn [mbind result_bind].
    rewrite Hitems. cbn [mbind result_bind].
    destruct (eq_str secType "BAG").
    - destruct (comprehension_if_filter
                  (fun f => contract ← getattr h f "contract";
                            secType ← getattr h contract "secType";
                            OK (eq_str secType "BAG"))
                  (fun v => eq_str (fill_secType v) "BAG")
                  (fill_at h) items fills) as (kept & -> & Hkept).
      { eapply Forall2_impl; [exact Hall|].
        intros x v Hx. split; [|done]. cbv beta.
        destruct Hx as (c & e & -> & Hsec & _).
        cbn [mbind result_bind]. by rewrite Hsec. }
      cbn [mbind result_bind]. apply sum_generator_map.
      eapply Forall2_impl; [exact Hkept|].
      intros x v (c & e & _ & _ & -> & Hsh). cbn [mbind result_bind]. done.
    - cbn [mbind result_bind]. apply sum_generator_map.
      eapply Forall2_impl; [exact Hall|].
      intros x v (c & e & _ & _ & -> & Hsh). cbn [mbind result_bind]. done.
Qed.

(** C1. [filled] is the sum of execution.shares over the fills that
    count: the fills on a BAG contract when the trade's contract is a BAG,
    and all the fills otherwise.  With integer shares it is their integer
    sum. *)
Theorem filled_sums_counted_fills (h : heap) (self : loc) (secType : value)
    (fills : list fill_view) :
  trade_at h self secType fills ->
  Trade.filled h self
  = py_sum (map fill_shares (counted_fills secType fills)) /\
  (forall shares : list Z,
     map fill_shares (counted_fills secType fills) = map VInt shares ->
     Trade.filled h self = OK (VInt (foldr Z.add 0 shares))).
Proof.
  intros Htrade. pose proof (filled_counted _ _ _ _ Htrade) as Heq.
  split; [exact Heq|].
  intros shares Hshares. rewrite Heq, Hshares. unfold py_sum.
  by rewrite sum_from_ints.
Qed.

(** C4. [remaining] is [order.totalQuantity] minus [filled], whatever the
    sign: with integers, the difference of the total quantity and the sum
    of the counted shares. *)
Theorem remaining_is_the_difference (h : heap) (self : loc)
    (order totalQuantity secType : value) (fills : list fill_view) :
  getattr h (VRef self) "order" = OK order ->
  getattr h order "totalQuantity" = OK totalQuantity ->
  trade_at h self secType fills ->
  Trade.remaining h self
  = (filled ← Trade.filled h self; py_sub totalQuantity filled) /\
  (forall (quantity : Z) (shares : list Z),
     totalQuantity = VInt quantity ->
     map fill_shares (counted_fills secType fills) = map VInt shares ->
     Trade.remaining h self = OK (VInt (quantity - foldr Z.add 0 shares))).
Proof.
  intros Horder Htotal Htrade.
  assert (Trade.remaining h self
          = (filled ← Trade.filled h self; py_sub totalQuantity filled))
    as Heq.
  { unfold Trade.remaining. rewrite Horder. cbn [mbind result_bind].
    by rewrite Htotal. }
  split; [exact Heq|].
  intros quantity shares -> Hshares. rewrite Heq.
  rewrite (filled_counted _ _ _ _ Htrade), Hshares. unfold py_sum.
  rewrite sum_from_ints. cbn [mbind result_bind]. reflexivity.
Qed.

Lemma filled_sums_counted_fills_witness :
  Trade.filled example_store 17 = OK (VInt 75).
Proof.
  apply (proj2 (filled_sums_counted_fills example_store 17 (VStr "BAG")
                  [ FillView (VStr "BAG") (VInt 75);
                    FillView (VStr "STK") (VInt 100) ]
                  ltac:(exists (VRef 12), [VRef 9; VRef 10], (VRef 1);
                        split_and!; try reflexivity;
                        repeat constructor;
                        [ exists (VRef 1), (VRef 5)
                        | exists (VRef 0), (VRef 2) ];
                        split_and!; reflexivity))
           [75] eq_refl).
Defined.

Lemma remaining_is_the_difference_witness :
  Trade.remaining example_store 18 = OK (VInt (-50)).
Proof.
  apply (proj2 (remaining_is_the_difference example_store 18
                  (VRef 14) (VInt 200) (VStr "STK")
                  [ FillView (VStr "STK") (VInt 100);
                    FillView (VStr "STK") (VInt 50);
                    FillView (VStr "STK") (VInt 100) ]
                  eq_refl eq_refl
                  ltac:(exists (VRef 13), [VRef 6; VRef 7; VRef 10], (VRef 0);
                        split_and!; try reflexivity;
                        repeat constructor;
                        [ exists (VRef 0), (VRef 2)
                        | exists (VRef 0), (VRef 3)
                        | exists (VRef 0), (VRef 2) ];
                        split_and!; reflexivity))
           200 [100; 50; 100] eq_refl eq_refl).
Defined.

(** The spec's examples: fills of 100, 50 and -20 shares on a stock make
    130, and leave 70 of 200. *)
Example filled_130 : Trade.filled example_store 16 = OK (VInt 130).
Proof. reflexivity. Qed.

Example remaining_70 : Trade.remaining example_store 16 = OK (VInt 70).
Proof. reflexivity. Qed.

(** A trade without a contract cannot tell its filled quantity. *)
Example filled_without_contract :
  Trade.filled [Instance Trade.cls Trade.defaults] 0 = Raise AttributeError.
Proof. reflexivity. Qed.

(** Float shares add up as floats do. *)
Example filled_floats :
  Trade.filled
    [ record "Contract" [("secType", VStr "STK")];
      record "Execution" [("shares", VFloat 0.5)];
      record "Execution" [("shares", VInt 2)];
      record "Fill" [("contract", VRef 0); ("execution", VRef 1)];
      record "Fill" [("contract", VRef 0); ("execution", VRef 2)];
      PyList [VRef 3; VRef 4];
      Instance Trade.cls
        [ ("contract", VRef 0); ("order", VNone); ("orderStatus", VNone);
          ("fills", VRef 5); ("log", VNone) ] ] 6
  = OK (VFloat 2.5).
Proof. reflexivity. Qed.

(** ** Equality: the claim *)

Lemma scalar_eq_refl (v : value) :
  not_nan v = true -> (forall l, v <> VRef l) -> scalar_eq v v = true.
Proof.
  destruct v as [|b|n|x|s|l]; simpl; intros Hnan Href.
  - done.
  - apply Z.eqb_refl.
  - apply Z.eqb_refl.
  - done.
  - apply String.eqb_refl.
  - by destruct (Href l).
Qed.

(** An element of a container equals itself: by identity for a reference,
    by value for a scalar other than nan. *)
Lemma elem_eq_refl (fuel : nat) (h : heap) (v : value) :
  not_nan v = true ->
  (if py_is v v then Some true else py_eq (S fuel) h v v) = Some true.
Proof.
  intros Hnan. destruct v as [|b|n|x|s|l];
    try (cbn [py_is py_eq]; f_equal; by apply scalar_eq_refl).
  cbn [py_is]. by rewrite Nat.eqb_refl.
Qed.

Lemma dict_eq_refl (veq : value -> value -> option bool) (a : alist) :
  NoDup (keys a) ->
  Forall (fun kv => veq kv.2 kv.2 = Some true) a ->
  Object.dict_eq veq a a = Some true.
Proof.
  intros Hnd Hall. unfold Object.dict_eq. rewrite Nat.eqb_refl. cbn [negb].
  assert (forall b : alist,
            (forall kv, In kv b ->
               alist_get kv.1 a = Some kv.2 /\ veq kv.2 kv.2 = Some true) ->
            fold_right
              (fun kv acc =>
                 match alist_get kv.1 a with
                 | None => Some false
                 | Some w =>
                     r ← veq kv.2 w;
                     if (r : bool) then acc else Some false
                 end)
              (Some true) b = Some true) as Hfold.
  { induction b as [|[k v] b IH]; intros Hb; cbn [fold_right]; [done|].
    destruct (Hb (k, v)) as [Hget Hv]; [by left|].
    cbn [fst snd] in *. rewrite Hget, Hv. cbn [mbind option_bind].
    apply IH. intros kv Hin. apply Hb. by right. }
  apply Hfold. intros [k v] Hin. cbn [fst snd]. split.
  - by apply alist_get_In.
  - by eapply Forall_forall in Hall; [|apply list_elem_of_In; exact Hin].
Qed.

(** C7. An order, of class Order or of a class derived from it, equals
    what is the same object and nothing else, whatever the field values,
    and its hash is its identity; two order statuses with the same field
    values, none of them nan, are equal. *)
Theorem Order_identity_OrderStatus_value (h : heap) (fuel : nat) :
  (forall a other, Order.__eq__ a other = true <-> other = VRef a) /\
  (forall a b, Order.__hash__ a = Order.__hash__ b <-> a = b) /\
  (forall a b c attrs,
     issubclass c "Order" = true ->
     h !! a = Some (Instance c attrs) ->
     h !! b = Some (Instance c attrs) ->
     py_eq (S fuel) h (VRef a) (VRef b) = Some (bool_decide (a = b))) /\
  (forall a b attrs,
     h !! a = Some (Instance OrderStatus.cls attrs) ->
     h !! b = Some (Instance OrderStatus.cls attrs) ->
     NoDup (keys attrs) ->
     Forall (fun kv => not_nan kv.2 = true) attrs ->
     py_eq (S (S fuel)) h (VRef a) (VRef b) = Some true).
Proof.
  split_and!.
  - intros a other. unfold Order.__eq__.
    destruct other as [| | | | |l]; try (split; [discriminate | done]).
    rewrite Nat.eqb_eq. split; [by intros -> | by intros [= ->]].
  - intros a b. unfold Order.__hash__, py_id. lia.
  - intros a b c attrs Hsub Ha Hb. cbn [py_eq]. rewrite Ha, Hsub.
    unfold Order.__eq__. f_equal.
    destruct (Nat.eqb_spec a b) as [->|Hne].
    + by rewrite bool_decide_eq_true_2.
    + by rewrite bool_decide_eq_false_2.
  - intros a b attrs Ha Hb Hnd Hall.
    change (py_eq (S (S fuel)) h (VRef a) (VRef b))
      with (match h !! a with
            | Some (Instance c _) =>
                if issubclass c "Order" then Some (Order.__eq__ a (VRef b))
                else Object.__eq__
                       (fun x y => if py_is x y then Some true
                                   else py_eq (S fuel) h x y)
                       h a (VRef b)
            | Some (PyList xs) =>
                match h !! b with
                | Some (PyList ys) =>
                    if negb (Nat.eqb (List.length xs) (List.length ys))
                    then Some false
                    else
                      fold_right
                        (fun xy acc =>
                           r ← (if py_is xy.1 xy.2 then Some true
                                else py_eq (S fuel) h xy.1 xy.2);
                           if (r : bool) then acc else Some false)
                        (Some true) (combine xs ys)
                | _ => Some false
                end
            | None => Some false
            end).
    rewrite Ha. change (issubclass OrderStatus.cls "Order") with false.
    cbv iota. unfold Object.__eq__. rewrite Ha, Hb.
    rewrite String.eqb_refl. apply dict_eq_refl; [done|].
    eapply Forall_impl; [exact Hall|].
    intros [k v] Hv. by apply elem_eq_refl.
Qed.

Lemma Order_identity_OrderStatus_value_witness :
  py_eq 1 example_twins (VRef 0) (VRef 1) = Some false /\
  py_eq 1 example_twins (VRef 0) (VRef 0) = Some true /\
  py_eq 2 example_twins (VRef 2) (VRef 3) = Some true.
Proof.
  destruct (Order_identity_OrderStatus_value example_twins 0)
    as (_ & _ & Horder & Hstatus).
  split_and!.
  - exact (Horder 0%nat 1%nat (@LimitOrder.cls example_env)
             (@Order.defaults example_env) eq_refl eq_refl eq_refl).
  - exact (Horder 0%nat 0%nat (@LimitOrder.cls example_env)
             (@Order.defaults example_env) eq_refl eq_refl eq_refl).
  - apply (Hstatus 2%nat 3%nat OrderStatus.defaults eq_refl eq_refl).
    + apply (bool_decide_unpack _). by vm_compute.
    + repeat constructor.
Defined.

(** ** Examples *)

(** The spec's stop-limit order. *)
Example StopLimitOrder_SELL :
  ('(self, h) ← new (@StopLimitOrder.cls example_env)
                  (fun h self =>
                     @StopLimitOrder.__init__ example_env h self
                       (VStr "SELL") (VInt 10) (VFloat 9) (VFloat 8.5) [])
                  [];
   orderType ← getattr h (VRef self) "orderType";
   lmtPrice ← getattr h (VRef self) "lmtPrice";
   auxPrice ← getattr h (VRef self) "auxPrice";
   OK (orderType, lmtPrice, auxPrice))
  = OK (VStr "STP LMT", VFloat 9, VFloat 8.5).
Proof. reflexivity. Qed.

(** An override reaches the order; one that names a field the constructor
    passes itself is refused by the call, and one that names no field by
    the base initialiser. *)
Example LimitOrder_with_tif :
  ('(self, h) ← new (@LimitOrder.cls example_env)
                  (fun h self =>
                     @LimitOrder.__init__ example_env h self
                       (VStr "BUY") (VInt 100) (VFloat 10.5)
                       [("tif", VStr "GTC")])
                  [];
   getattr h (VRef self) "tif")
  = OK (VStr "GTC").
Proof. reflexivity. Qed.

Example LimitOrder_with_orderType :
  new (@LimitOrder.cls example_env)
    (fun h self =>
       @LimitOrder.__init__ example_env h self
         (VStr "BUY") (VInt 100) (VFloat 10.5) [("orderType", VStr "MKT")])
    []
  = Raise TypeError.
Proof. reflexivity. Qed.

Example LimitOrder_with_unknown_field :
  new (@LimitOrder.cls example_env)
    (fun h self =>
       @LimitOrder.__init__ example_env h self
         (VStr "BUY") (VInt 100) (VFloat 10.5) [("limit", VFloat 10.5)])
    []
  = Raise AttributeError.
Proof. reflexivity. Qed.

(** Two orders built one after the other do not share their conditions
    list, and an empty list given as the conditions is not kept either. *)
Example Order_twice :
  ('(a, h) ← new (@Order.cls example_env)
               (fun h self => @Order.__init__ example_env h self [] []) [];
   '(b, h) ← new (@Order.cls example_env)
               (fun h self => @Order.__init__ example_env h self [] []) h;
   ca ← getattr h (VRef a) "conditions";
   cb ← getattr h (VRef b) "conditions";
   OK (a, ca, b, cb))
  = OK (0%nat, VRef 1, 3%nat, VRef 4).
Proof. reflexivity. Qed.

Example Order_with_empty_conditions :
  ('(self, h) ← new (@Order.cls example_env)
                  (fun h self =>
                     @Order.__init__ example_env h self []
                       [("conditions", VRef 0)])
                  [PyList []];
   getattr h (VRef self) "conditions")
  = OK (VRef 2).
Proof. reflexivity. Qed.

(** A positional argument is a field in declaration order. *)
Example Order_positional :
  ('(self, h) ← new (@Order.cls example_env)
                  (fun h self =>
                     @Order.__init__ example_env h self [VInt 7; VInt 3]
                       [("action", VStr "BUY")])
                  [];
   orderId ← getattr h (VRef self) "orderId";
   clientId ← getattr h (VRef self) "clientId";
   action ← getattr h (VRef self) "action";
   OK (orderId, clientId, action))
  = OK (VInt 7, VInt 3, VStr "BUY").
Proof. reflexivity. Qed.

(** * Further properties *)

(** ** The status of a trade *)

Lemma states_disjoint (s : string) :
  s ∈ OrderStatus.ActiveStates -> s ∈ OrderStatus.DoneStates -> False.
Proof.
  unfold OrderStatus.ActiveStates, OrderStatus.DoneStates.
  rewrite !elem_of_union, !elem_of_singleton.
  intros [[[->| ->]| ->]| ->] [[?|?]|?]; discriminate.
Qed.

(** X1. [isActive] and [isDone] raise together, with the same exception,
    and when they return they are never both true, whatever the status
    field holds. *)
Theorem isActive_isDone_exclusive (h : heap) (self : loc) :
  (forall e, Trade.isActive h self = Raise e <-> Trade.isDone h self = Raise e)
  /\
  ~ (Trade.isActive h self = OK true /\ Trade.isDone h self = OK true).
Proof.
  unfold Trade.isActive, Trade.isDone.
  destruct (getattr h (VRef self) "orderStatus") as [os|e0];
    cbn [mbind result_bind]; [|by split; [|intros [[=] _]]].
  destruct (getattr h os "status") as [st|e0];
    cbn [mbind result_bind]; [|by split; [|intros [[=] _]]].
  destruct st as [| | | |s|l]; cbn [contains];
    try (by split; [|intros [[=] _]]).
  - split; [by split|]. intros [Ha Hd].
    apply OK_inj, bool_decide_eq_true in Ha.
    apply OK_inj, bool_decide_eq_true in Hd.
    by eapply states_disjoint.
  - destruct (h !! l) as [[c a|items]|]; by split; [|intros [[=] _]].
Qed.

Lemma setattr_inv (h h' : heap) (self : loc) (name : string) (v : value) :
  setattr h self name v = OK h' ->
  exists c attrs,
    h !! self = Some (Instance c attrs) /\
    h' = <[self := Instance c (alist_set name v attrs)]> h.
Proof.
  unfold setattr. intros Hs.
  destruct (h !! self) as [[c attrs|items]|] eqn:Hl; try discriminate.
  destruct (mem name (slots c) || has_dict c); [|discriminate].
  apply OK_inj in Hs. by exists c, attrs.
Qed.

(** X2. The two predicates follow the status object: once
    [orderStatus.status] has been assigned a string in place, [isActive]
    and [isDone] answer for that string. *)
Theorem status_update_is_seen (h h' : heap) (self os : loc) (status : string) :
  getattr h (VRef self) "orderStatus" = OK (VRef os) ->
  os <> self ->
  setattr h os "status" (VStr status) = OK h' ->
  Trade.isActive h' self
  = OK (bool_decide (status ∈ OrderStatus.ActiveStates)) /\
  Trade.isDone h' self
  = OK (bool_decide (status ∈ OrderStatus.DoneStates)).
Proof.
  intros Hos Hne Hset.
  apply setattr_inv in Hset as (c & attrs & Hl & ->).
  assert (getattr (<[os := Instance c (alist_set "status" (VStr status) attrs)]> h)
            (VRef self) "orderStatus" = OK (VRef os)) as Hos'.
  { unfold getattr in *. by rewrite list_lookup_insert_ne. }
  assert (getattr (<[os := Instance c (alist_set "status" (VStr status) attrs)]> h)
            (VRef os) "status" = OK (VStr status)) as Hst.
  { erewrite getattr_instance.
    - by rewrite alist_get_set_eq.
    - apply list_lookup_insert_eq. by eapply lookup_lt_Some. }
  unfold Trade.isActive, Trade.isDone.
  rewrite Hos'. cbn [mbind result_bind]. by rewrite Hst.
Qed.

Lemma status_update_is_seen_witness :
  exists h',
    setattr example_store 15 "status" (VStr "Filled") = OK h' /\
    Trade.isActive h' 16 = OK false /\
    Trade.isDone h' 16 = OK true.
Proof.
  eexists.
  assert (setattr example_store 15 "status" (VStr "Filled") = OK _) as Hset
    by reflexivity.
  split; [exact Hset|].
  exact (status_update_is_seen example_store _ 16 15 "Filled"
           eq_refl ltac:(discriminate) Hset).
Defined.

(** ** The filled and the remaining quantity *)





Lemma sum_from_app (acc : value) (xs ys : list value) :
  sum_from acc (xs ++ ys) = (total ← sum_from acc xs; sum_from total ys).
Proof.
  revert acc. induction xs as [|x xs IH]; intros acc; simpl; [done|].
  destruct (py_add acc x); cbn [mbind result_bind]; [apply IH | done].
Qed.

Lemma counted_fills_counts (secType : value) (fills : list fill_view) :
  counted_fills secType fills = List.filter (counts secType) fills.
Proof.
  unfold counted_fills, counts. destruct (eq_str secType "BAG"); simpl.
  - done.
  - induction fills as [|v fills IH]; simpl; [done | by rewrite <- IH].
Qed.

Lemma filled_one_more (h h' : heap) (self self' : loc) (secType : value)
    (fills : list fill_view) (v : fill_view) :
  trade_at h self secType fills ->
  trade_at h' self' secType (fills ++ [v]) ->
  Trade.filled h' self'
  = (total ← Trade.filled h self;
     if counts secType v then py_add total (fill_shares v) else OK total).
Proof.
  - intros Ht Ht'.
    rewrite (filled_counted _ _ _ _ Ht), (filled_counted _ _ _ _ Ht').
    rewrite !counted_fills_counts, List.filter_app, map_app. unfold py_sum.
    rewrite sum_from_app. cbn [List.filter].
    destruct (sum_from _ _) as [total|]; cbn [mbind result_bind]; [|done].
    destruct (counts secType v); cbn [map sum_from]; [|done].
    by destruct (py_add total (fill_shares v)).
Qed.

(** Appending to a list changes no attribute of any object. *)
Lemma getattr_list_append (h h' : heap) (l : loc) (x v : value)
    (name : string) :
  list_append h l x = OK h' -> getattr h' v name = getattr h v name.
Proof.
  unfold list_append. destruct (h !! l) as [[c a|items]|] eqn:Hl;
    try discriminate.
  intros [= <-]. unfold getattr. destruct v as [| | | | |l']; try done.
  destruct (decide (l' = l)) as [->|Hne].
  - rewrite list_lookup_insert_eq by (by eapply lookup_lt_Some).
    by rewrite Hl.
  - by rewrite list_lookup_insert_ne.
Qed.

(** X4. [filled] accumulates: a trade with an empty list of fills has
    filled the integer 0, and appending a fill to the list of a trade adds
    its shares to the filled quantity if the fill counts, and leaves the
    quantity as it was if the fill is a leg of a BAG. *)
Theorem filled_accumulates (h h' : heap) (self fills_list : loc)
    (secType fill : value) (fills : list fill_view) (v : fill_view) :
  trade_at h self secType fills ->
  (fills = [] -> Trade.filled h self = OK (VInt 0)) /\
  (getattr h (VRef self) "fills" = OK (VRef fills_list) ->
   fill_at h fill v ->
   list_append h fills_list fill = OK h' ->
   Trade.filled h' self
   = (total ← Trade.filled h self;
      if counts secType v then py_add total (fill_shares v) else OK total)).
Proof.
  intros Ht. split.
  - intros ->. by rewrite (filled_counted _ _ _ _ Ht), counted_fills_counts.
  - intros Hfills Hfill Happ.
    apply (filled_one_more h h' self self secType fills v Ht).
    destruct Ht as (fr & items & contract & Hfr & Hitems & Hall & Hc & Hst).
    rewrite Hfills in Hfr. apply OK_inj in Hfr. subst fr.
    exists (VRef fills_list), (items ++ [fill]), contract.
    assert (forall x n, getattr h' x n = getattr h x n) as Hget.
    { intros x n. by eapply getattr_list_append. }
    split_and!.
    + by rewrite Hget.
    + unfold list_append in Happ. unfold items_of in *.
      destruct (h !! fills_list) as [[c a|items']|] eqn:Hl; try discriminate.
      apply OK_inj in Hitems. subst items'. apply OK_inj in Happ. subst h'.
      by rewrite list_lookup_insert_eq by (by eapply lookup_lt_Some).
    + apply Forall2_app.
      * eapply Forall2_impl; [exact Hall|].
        intros x w (c & e & H1 & H2 & H3 & H4). exists c, e.
        by rewrite !Hget.
      * constructor; [|constructor].
        destruct Hfill as (c & e & H1 & H2 & H3 & H4). exists c, e.
        by rewrite !Hget.
    + by rewrite Hget.
    + by rewrite Hget.
Qed.

Lemma filled_accumulates_witness :
  exists h',
    list_append example_store 11 (VRef 10) = OK h' /\
    Trade.filled h' 16 = OK (VInt 230).
Proof.
  eexists.
  assert (list_append example_store 11 (VRef 10) = OK _) as Happ
    by reflexivity.
  split; [exact Happ|].
  exact (proj2 (filled_accumulates example_store _ 16 11 (VStr "STK")
                  (VRef 10)
                  [ FillView (VStr "STK") (VInt 100);
                    FillView (VStr "STK") (VInt 50);
                    FillView (VStr "STK") (VInt (-20)) ]
                  (FillView (VStr "STK") (VInt 100))
                  ltac:(exists (VRef 11), [VRef 6; VRef 7; VRef 8], (VRef 0);
                        split_and!; try reflexivity;
                        repeat constructor;
                        [ exists (VRef 0), (VRef 2)
                        | exists (VRef 0), (VRef 3)
                        | exists (VRef 0), (VRef 4) ];
                        split_and!; reflexivity))
           eq_refl
           ltac:(exists (VRef 0), (VRef 2); split_and!; reflexivity)
           Happ).
Defined.

Lemma comprehension_if_kept (p : value -> result bool)
    (q : fill_view -> bool) (R : value -> fill_view -> Prop)
    (items : list value) (views : list fill_view) :
  Forall2 (fun x v => p x = OK (q v) /\ (q v = true -> R x v)) items views ->
  exists kept,
    comprehension_if p items = OK kept /\
    Forall2 R kept (List.filter q views).
Proof.
  induction 1 as [|x v items views [Hx HR] _ (kept & IH & Hkept)]; simpl.
  - by exists [].
  - rewrite Hx, IH. cbn [mbind result_bind].
    destruct (q v); eexists; (split; [reflexivity|]);
      [constructor; [by apply HR | done] | done].
Qed.

(** X5. [filled] reads of a fill only what decides the sum: on a BAG
    trade the shares of a leg are never read, so a leg without a readable
    execution does no harm; on any other trade the contracts of the fills
    are never read.  The result is the sum over the fills that count. *)
Theorem filled_reads_what_counts (h : heap) (self : loc)
    (fills_ref contract secType : value) (items : list value)
    (views : list fill_view) :
  getattr h (VRef self) "fills" = OK fills_ref ->
  items_of h fills_ref = OK items ->
  getattr h (VRef self) "contract" = OK contract ->
  getattr h contract "secType" = OK secType ->
  Forall2 (fill_read h secType) items views ->
  Trade.filled h self
  = py_sum (map fill_shares (List.filter (counts secType) views)).
Proof.
  intros Hfills Hitems Hc Hst Hall.
  unfold Trade.filled, py_sum, counts.
  rewrite Hfills. cbn [mbind result_bind].
  rewrite Hc. cbn [mbind result_bind].
  rewrite Hst. cbn [mbind result_bind].
  rewrite Hitems. cbn [mbind result_bind].
  destruct (eq_str secType "BAG") eqn:Hbag; cbn [negb orb].
  - destruct (comprehension_if_kept
                (fun f => contract ← getattr h f "contract";
                          secType ← getattr h contract "secType";
                          OK (eq_str secType "BAG"))
                (fun v => eq_str (fill_secType v) "BAG")
                (fun x v => exists e, getattr h x "execution" = OK e /\
                                      getattr h e "shares" = OK (fill_shares v))
                items views) as (kept & -> & Hkept).
    { eapply Forall2_impl; [exact Hall|].
      intros x v [Hcontract Hshares]. split.
      - destruct Hcontract as (c & -> & Hsec); [done|].
        cbn [mbind result_bind]. by rewrite Hsec.
      - intros Hv. apply Hshares. by right. }
    cbn [mbind result_bind]. apply sum_generator_map.
    eapply Forall2_impl; [exact Hkept|].
    intros x v (e & -> & Hsh). cbn [mbind result_bind]. done.
  - cbn [mbind result_bind].
    replace (List.filter (fun _ => true) views) with views.
    2:{ clear. induction views as [|v views IH]; simpl; [done | by rewrite <- IH]. }
    apply sum_generator_map.
    eapply Forall2_impl; [exact Hall|].
    intros x v [_ Hshares]. destruct Hshares as (e & -> & Hsh); [by left|].
    cbn [mbind result_bind]. done.
Qed.

Lemma filled_reads_what_counts_witness :
  Trade.filled example_bag_store 6 = OK (VInt 75).
Proof.
  apply (filled_reads_what_counts example_bag_store 6
           (VRef 5) (VRef 0) (VStr "BAG") [VRef 3; VRef 4]
           [ FillView (VStr "BAG") (VInt 75); FillView (VStr "STK") VNone ]
           eq_refl eq_refl eq_refl eq_refl).
  repeat constructor.
  - intros _. by exists (VRef 0).
  - intros _. by exists (VRef 2).
  - intros _. by exists (VRef 1).
  - intros [Hf|Hf]; discriminate Hf.
Defined.

(** ** The conjunction of a condition *)

Lemma alist_set_set (k : string) (v w : value) (d : alist) :
  alist_set k w (alist_set k v d) = alist_set k w d.
Proof.
  induction d as [|[k0 v0] d IH]; simpl.
  - by rewrite String.eqb_refl.
  - destruct (String.eqb k k0) eqn:Hk; simpl; rewrite Hk; [done|].
    by rewrite IH.
Qed.

(** Two assignments to one attribute are the second one. *)
Lemma setattr_setattr (h : heap) (self : loc) (name : string) (v w : value) :
  (h1 ← setattr h self name v; setattr h1 self name w) = setattr h self name w.
Proof.
  unfold setattr. destruct (h !! self) as [[c attrs|items]|] eqn:Hl; try done.
  destruct (mem name (slots c) || has_dict c) eqn:Hm; [|done].
  cbn [mbind result_bind].
  rewrite list_lookup_insert_eq by (by eapply lookup_lt_Some).
  by rewrite Hm, list_insert_insert_eq, alist_set_set.
Qed.

(** X6. [And] and [Or] are idempotent and the last one called wins: a
    chain of two calls leaves the store, returns the reference and raises
    exactly as its second call alone does. *)
Theorem And_Or_last_wins (h : heap) (self : loc) :
  ('(h1, _) ← OrderCondition.And h self; OrderCondition.Or h1 self)
  = OrderCondition.Or h self /\
  ('(h1, _) ← OrderCondition.Or h self; OrderCondition.And h1 self)
  = OrderCondition.And h self /\
  ('(h1, _) ← OrderCondition.And h self; OrderCondition.And h1 self)
  = OrderCondition.And h self /\
  ('(h1, _) ← OrderCondition.Or h self; OrderCondition.Or h1 self)
  = OrderCondition.Or h self.
Proof.
  assert (forall v w,
            ('(h1, _) ← (h' ← setattr h self "conjunction" v;
                         OK (h', VRef self));
             h' ← setattr h1 self "conjunction" w; OK (h', VRef self))
            = (h' ← setattr h self "conjunction" w; OK (h', VRef self)))
    as Hchain.
  { intros v w. rewrite <- (setattr_setattr h self "conjunction" v w).
    by destruct (setattr h self "conjunction" v). }
  unfold OrderCondition.And, OrderCondition.Or. split_and!; apply Hchain.
Qed.

(** X7. [And] and [Or] succeed exactly on an instance whose class has a
    conjunction slot or a [__dict__]; on anything else both raise
    AttributeError. *)
Theorem And_Or_need_the_slot (h : heap) (self : loc) :
  let settable :=
    exists c attrs,
      h !! self = Some (Instance c attrs) /\
      (In "conjunction" (slots c) \/ has_dict c = true) in
  (succeeds (OrderCondition.And h self) <-> settable) /\
  (succeeds (OrderCondition.Or h self) <-> settable) /\
  (~ settable ->
     OrderCondition.And h self = Raise AttributeError /\
     OrderCondition.Or h self = Raise AttributeError).
Proof.
  intros settable. unfold OrderCondition.And, OrderCondition.Or, setattr.
  destruct (h !! self) as [[c attrs|items]|] eqn:Hl.
  - destruct (mem "conjunction" (slots c) || has_dict c) eqn:Hm;
      cbn [mbind result_bind].
    + assert settable as Hs.
      { exists c, attrs. split; [done|].
        apply orb_true_iff in Hm as [Hm|Hm]; [left; by apply mem_true | by right]. }
      split_and!; [split; [done | by eexists] .. | by intros Hn].
    + assert (~ settable) as Hs.
      { intros (c' & attrs' & [= <- <-] & Hslot).
        apply orb_false_iff in Hm as [Hm Hd]. apply mem_false in Hm.
        destruct Hslot; [done | congruence]. }
      split_and!; [split; [by intros [? [=]] | done] .. | done].
  - assert (~ settable) as Hs by (by intros (c' & attrs' & [=] & _)).
    split_and!; [split; [by intros [? [=]] | done] .. | done].
  - assert (~ settable) as Hs by (by intros (c' & attrs' & [=] & _)).
    split_and!; [split; [by intros [? [=]] | done] .. | done].
Qed.

(** X8. [createClass] is injective, and a class it returns is a proper
    subclass of OrderCondition whose instances have a conjunction to set:
    decoding never yields the base class. *)
Theorem createClass_injective (d d' : Z) (c : pyclass) :
  OrderCondition.createClass d = OK c ->
  (OrderCondition.createClass d' = OK c -> d' = d) /\
  issubclass c "OrderCondition" = true /\
  c <> OrderCondition.cls /\
  In "conjunction" (slots c).
Proof.
  unfold OrderCondition.createClass, OrderCondition.subscript.
  repeat match goal with
         | |- context [d =? ?n] => destruct (Z.eqb_spec d n) as [->|?]
         end; try discriminate; intros [= <-];
    (split_and!; [| reflexivity | discriminate | simpl; tauto]);
    repeat match goal with
           | |- context [d' =? ?n] => destruct (Z.eqb_spec d' n) as [->|?]
           end; try discriminate; done.
Qed.

Lemma createClass_injective_witness :
  issubclass TimeCondition.cls "OrderCondition" = true /\
  TimeCondition.cls <> OrderCondition.cls.
Proof.
  destruct (createClass_injective 3 3 TimeCondition.cls eq_refl)
    as (_ & Hsub & Hne & _).
  by split.
Defined.

Lemma And_Or_need_the_slot_witness :
  OrderCondition.And [Instance OrderStatus.cls OrderStatus.defaults] 0
  = Raise AttributeError /\
  OrderCondition.Or [PyList []] 0 = Raise AttributeError.
Proof.
  split.
  - apply (And_Or_need_the_slot
             [Instance OrderStatus.cls OrderStatus.defaults] 0).
    intros (c & attrs & Hl & Hslot). cbn in Hl.
    injection Hl as <- <-. cbn in Hslot.
    destruct Hslot as [Hin|Hd]; [|discriminate Hd].
    repeat destruct Hin as [Hin|Hin];
      first [discriminate Hin | destruct Hin].
  - apply (And_Or_need_the_slot [PyList []] 0).
    intros (c & attrs & Hl & _). discriminate Hl.
Defined.

(** ** The construction of orders *)

Section OrderConstruction.
Context `{Env}.

Lemma call_kwargs_repeated (explicit kwargs : alist) (k : string) :
  In k (keys kwargs) -> In k (keys explicit) ->
  call_kwargs explicit kwargs = Raise TypeError.
Proof.
  intros Hk Hf. unfold call_kwargs.
  replace (existsb _ (keys kwargs)) with true; [done|].
  symmetry. apply existsb_exists. exists k. split; [done | by apply mem_true].
Qed.

(** X9. An override that names a field the typed constructor passes
    itself (orderType, action, totalQuantity, and lmtPrice or auxPrice
    where the constructor sets it) makes the construction raise
    TypeError, whatever the other overrides are. *)
Theorem repeated_keyword_is_a_TypeError (h : heap)
    (action totalQuantity lmtPrice stopPrice : value) (overrides : alist)
    (k : string) :
  In k (keys overrides) ->
  (In k ["orderType"; "action"; "totalQuantity"; "lmtPrice"] ->
   new LimitOrder.cls
     (fun h self =>
        LimitOrder.__init__ h self action totalQuantity lmtPrice overrides)
     h = Raise TypeError) /\
  (In k ["orderType"; "action"; "totalQuantity"] ->
   new MarketOrder.cls
     (fun h self =>
        MarketOrder.__init__ h self action totalQuantity overrides)
     h = Raise TypeError) /\
  (In k ["orderType"; "action"; "totalQuantity"; "auxPrice"] ->
   new StopOrder.cls
     (fun h self =>
        StopOrder.__init__ h self action totalQuantity stopPrice overrides)
     h = Raise TypeError) /\
  (In k ["orderType"; "action"; "totalQuantity"; "lmtPrice"; "auxPrice"] ->
   new StopLimitOrder.cls
     (fun h self =>
        StopLimitOrder.__init__ h self action totalQuantity lmtPrice
          stopPrice overrides)
     h = Raise TypeError).
Proof.
  intros Hk.
  split_and!; intros Hf; unfold new, alloc;
    unfold LimitOrder.__init__, MarketOrder.__init__, StopOrder.__init__,
      StopLimitOrder.__init__;
    (erewrite (call_kwargs_repeated _ overrides k);
       [reflexivity | exact Hk | exact Hf]).
Qed.

(** The size of the store after [Order.__init__] on a new instance. *)
Lemma Order_init_length (h h' : heap) (self : loc) (c : pyclass)
    (args : list value) (kwargs : alist) :
  h !! self = Some (Instance c []) ->
  order_like c ->
  Order.__init__ h self args kwargs = OK h' ->
  (List.length h <= List.length h' <= List.length h + 2)%nat.
Proof.
  intros Hself Hc Hinit. unfold Order.__init__ in Hinit.
  apply bind_OK in Hinit as (h1 & Hbase & Hinit).
  rewrite (Object_init_order _ _ _ _ _ Hself Hc) in Hbase.
  destruct (forallb _ (keys kwargs)); [|discriminate].
  apply OK_inj in Hbase.
  assert (h1 !! self = Some (Instance c (base_fields args kwargs))) as Hself1.
  { subst h1. apply list_lookup_insert_eq. by eapply lookup_lt_Some. }
  assert (List.length h1 = List.length h) as Hlen1.
  { subst h1. apply length_insert. }
  clear Hbase.
  apply bind_OK in Hinit as (cv & _ & Hinit).
  apply bind_OK in Hinit as (h2 & Hfix1 & Hinit).
  apply bind_OK in Hinit as (sv & _ & Hinit).
  apply bind_OK in Hinit as (h3 & Hfix2 & Hinit).
  apply OK_inj in Hinit. subst h3.
  assert (exists a2, h2 !! self = Some (Instance c a2) /\
                     (List.length h1 <= List.length h2 <= List.length h1 + 1)%nat)
    as (a2 & Hself2 & Hlen2).
  { apply (fix_conditions_OK _ _ _ _ _ _ Hself1 Hc) in Hfix1
      as [[_ ->]|[_ ->]].
    - eexists. split; [done | lia].
    - eexists. split.
      + apply list_lookup_insert_eq. rewrite length_app.
        apply lookup_lt_Some in Hself1. lia.
      + rewrite length_insert, length_app. simpl. lia. }
  apply (fix_softDollarTier_OK _ _ _ _ _ _ Hself2 Hc) in Hfix2
    as [[_ ->]|[_ ->]].
  - lia.
  - rewrite length_insert, length_app. simpl. lia.
Qed.

(** X10. The construction of an order changes no object that was in the
    store, the lists and records given as arguments included; it adds the
    order and at most two more objects. *)
Theorem Order_construction_frame (c : pyclass) (h h' : heap) (self : loc)
    (args : list value) (kwargs : alist) :
  In c order_classes ->
  new c (fun h self => Order.__init__ h self args kwargs) h = OK (self, h') ->
  self = List.length h /\
  (forall l, (l < List.length h)%nat -> h' !! l = h !! l) /\
  (List.length h + 1 <= List.length h' <= List.length h + 3)%nat.
Proof.
  intros Hc Hnew. apply order_classes_like in Hc.
  apply new_OK in Hnew as [-> Hinit].
  assert ((h ++ [Instance c []]) !! List.length h = Some (Instance c []))
    as Hself.
  { rewrite lookup_app_r by lia. by rewrite Nat.sub_diag. }
  pose proof (Order_init_length _ _ _ _ _ _ Hself Hc Hinit) as Hlen.
  apply (Order_init_OK _ _ _ _ _ _ Hself Hc) in Hinit
    as (attrs & cv0 & sv0 & cv & sv & _ & Hframe & _).
  rewrite length_app in *. simpl in *.
  split; [done|]. split; [|lia].
  intros l Hl. rewrite Hframe by lia. by rewrite lookup_app_l.
Qed.

(** X11. Two orders constructed one after the other are different
    objects: they are unequal under [__eq__] and have different hashes
    even when built from the same arguments, the second construction
    leaves the first order as it was, and conditions lists that the
    constructor made for them are not shared. *)
Theorem orders_constructed_apart (c1 c2 : pyclass) (h h1 h2 : heap)
    (a b : loc) (args1 args2 : list value) (kwargs1 kwargs2 : alist) :
  In c1 order_classes ->
  In c2 order_classes ->
  new c1 (fun h self => Order.__init__ h self args1 kwargs1) h = OK (a, h1) ->
  new c2 (fun h self => Order.__init__ h self args2 kwargs2) h1 = OK (b, h2) ->
  Order.__eq__ a (VRef b) = false /\
  Order.__eq__ b (VRef a) = false /\
  Order.__hash__ a <> Order.__hash__ b /\
  h2 !! a = h1 !! a /\
  (forall v1 v2,
     alist_get "conditions" (base_fields args1 kwargs1) = Some v1 ->
     truthy h v1 = false ->
     alist_get "conditions" (base_fields args2 kwargs2) = Some v2 ->
     truthy h1 v2 = false ->
     getattr h2 (VRef a) "conditions" <> getattr h2 (VRef b) "conditions").
Proof.
  intros Hc1 Hc2 Hnew1 Hnew2.
  apply order_classes_like in Hc1, Hc2.
  apply new_OK in Hnew1 as [-> Hinit1]. apply new_OK in Hnew2 as [-> Hinit2].
  assert ((h ++ [Instance c1 []]) !! List.length h = Some (Instance c1 []))
    as Hself1.
  { rewrite lookup_app_r by lia. by rewrite Nat.sub_diag. }
  assert ((h1 ++ [Instance c2 []]) !! List.length h1 = Some (Instance c2 []))
    as Hself2.
  { rewrite lookup_app_r by lia. by rewrite Nat.sub_diag. }
  apply (Order_init_OK _ _ _ _ _ _ Hself1 Hc1) in Hinit1
    as (attrs1 & cv1 & sv1 & ca & sa & Ha & _ & _ & Hcv1 & _ & Hca & _
        & _ & _ & _ & Hfresh1 & _).
  apply (Order_init_OK _ _ _ _ _ _ Hself2 Hc2) in Hinit2
    as (attrs2 & cv2 & sv2 & cb & sb & Hb & Hframe2 & _ & Hcv2 & _ & Hcb & _
        & _ & _ & _ & Hfresh2 & _).
  pose proof (lookup_lt_Some _ _ _ Ha) as Hlt.
  assert (List.length h <> List.length h1) as Hne by lia.
  rewrite length_app in Hframe2. simpl in Hframe2.
  assert (forall l, (l < List.length h1)%nat -> h2 !! l = h1 !! l) as Hold.
  { intros l Hl. rewrite Hframe2 by lia. by rewrite lookup_app_l. }
  split_and!.
  - unfold Order.__eq__. by apply Nat.eqb_neq.
  - unfold Order.__eq__. by apply Nat.eqb_neq.
  - unfold Order.__hash__, py_id. lia.
  - by apply Hold.
  - intros v1 v2 Hv1 Hf1 Hv2 Hf2.
    rewrite Hcv1 in Hv1. apply (inj Some) in Hv1. subst v1.
    rewrite Hcv2 in Hv2. apply (inj Some) in Hv2. subst v2.
    rewrite truthy_alloc_instance in Hfresh1, Hfresh2.
    destruct (Hfresh1 Hf1) as (la & -> & _ & _ & Hla).
    destruct (Hfresh2 Hf2) as (lb & -> & Hlb & _ & _).
    rewrite length_app in Hlb. simpl in Hlb.
    apply lookup_lt_Some in Hla.
    assert (h2 !! List.length h = Some (Instance c1 attrs1)) as Ha2.
    { by rewrite Hold. }
    rewrite (getattr_instance _ _ _ _ _ Ha2), Hca.
    rewrite (getattr_instance _ _ _ _ _ Hb), Hcb.
    simpl. intros [= Heq]. lia.
Qed.

End OrderConstruction.

Lemma repeated_keyword_is_a_TypeError_witness :
  new (@StopOrder.cls example_env)
    (fun h self =>
       @StopOrder.__init__ example_env h self (VStr "SELL") (VInt 10)
         (VFloat 8.5) [("tif", VStr "GTC"); ("auxPrice", VFloat 8)])
    []
  = Raise TypeError.
Proof.
  apply (proj1 (proj2 (proj2
           (@repeated_keyword_is_a_TypeError example_env []
              (VStr "SELL") (VInt 10) VNone (VFloat 8.5)
              [("tif", VStr "GTC"); ("auxPrice", VFloat 8)] "auxPrice"
              ltac:(simpl; tauto))))).
  simpl. tauto.
Defined.

Lemma Order_construction_frame_witness :
  exists self h',
    new (@Order.cls example_env)
      (fun h self =>
         @Order.__init__ example_env h self [] [("conditions", VRef 0)])
      [PyList []]
    = OK (self, h') /\
    h' !! 0%nat = Some (PyList []) /\
    (List.length h' <= 4)%nat.
Proof.
  eexists _, _.
  assert (new (@Order.cls example_env)
            (fun h self =>
               @Order.__init__ example_env h self [] [("conditions", VRef 0)])
            [PyList []]
          = OK (_, _)) as Hnew by (vm_compute; reflexivity).
  destruct (@Order_construction_frame example_env _ _ _ _ _ _
              (or_introl eq_refl) Hnew) as (_ & Hframe & Hlen).
  split_and!; [exact Hnew | exact (Hframe 0%nat ltac:(simpl; lia)) |].
  exact (proj2 Hlen).
Defined.

Lemma orders_constructed_apart_witness :
  exists a b h1 h2,
    new (@MarketOrder.cls example_env)
      (fun h self =>
         @Order.__init__ example_env h self []
           [("orderType", VStr "MKT"); ("action", VStr "BUY");
            ("totalQuantity", VInt 1)])
      [] = OK (a, h1) /\
    new (@MarketOrder.cls example_env)
      (fun h self =>
         @Order.__init__ example_env h self []
           [("orderType", VStr "MKT"); ("action", VStr "BUY");
            ("totalQuantity", VInt 1)])
      h1 = OK (b, h2) /\
    Order.__eq__ a (VRef b) = false /\
    getattr h2 (VRef a) "conditions" <> getattr h2 (VRef b) "conditions".
Proof.
  assert (exists a h1,
            new (@MarketOrder.cls example_env)
              (fun h self =>
                 @Order.__init__ example_env h self []
                   [("orderType", VStr "MKT"); ("action", VStr "BUY");
                    ("totalQuantity", VInt 1)])
              [] = OK (a, h1)) as (a & h1 & Hnew1)
    by (eexists _, _; vm_compute; reflexivity).
  assert (exists b h2,
            new (@MarketOrder.cls example_env)
              (fun h self =>
                 @Order.__init__ example_env h self []
                   [("orderType", VStr "MKT"); ("action", VStr "BUY");
                    ("totalQuantity", VInt 1)])
              h1 = OK (b, h2)) as (b & h2 & Hnew2).
  { vm_compute in Hnew1. injection Hnew1 as <- <-.
    eexists _, _. vm_compute. reflexivity. }
  destruct (@orders_constructed_apart example_env _ _ _ _ _ _ _ _ _ _ _
              (or_intror (or_intror (or_introl eq_refl)))
              (or_intror (or_intror (or_introl eq_refl)))
              Hnew1 Hnew2) as (Heq & _ & _ & _ & Hcond).
  exists a, b, h1, h2.
  split_and!; [exact Hnew1 | exact Hnew2 | exact Heq |].
  exact (Hcond VNone VNone eq_refl eq_refl eq_refl eq_refl).
Defined.

(** ** The construction of a trade *)

Section TradeConstruction.
Variable Event : string -> object.





End TradeConstruction.

